(** * github-actions-mcp-server: the typed request pipeline

    A shallow embedding of [src/operations/actions.ts] and of the tool
    surface of [src/index.ts], together with models of the collaborators
    they import from [src/common/] (URL builder, HTTP adapter, validators,
    response shapes) and of the fragment of zod the schemas are written in.

    Conventions.
    - A JavaScript [number] is modelled by an integer ([Z]): identifiers,
      page numbers and counts.  [NaN] and the infinities cannot be carried
      by a JSON request and are rejected by [z.number()].
    - A JavaScript string is a [string] of bytes (UTF-8).
    - [undefined] in an optional position is [None]; inside a dynamically
      typed value it is [VUndefined].
    - An [async] function is a computation that threads the log of requests
      handed to the HTTP adapter and either returns or throws. *)

From Stdlib Require Import ZArith List Bool Ascii String Lia.
From Stdlib Require Import DecimalString DecimalZ DecimalPos.
From stdpp Require Import base option gmap strings list.

Local Open Scope string_scope.
Local Open Scope list_scope.
Local Open Scope Z_scope.

(** ** JavaScript primitives *)

Module Js.

(** [Number.prototype.toString] (radix 10) on an integer-valued number:
    what a template literal [`${n}`] interpolates. *)
Definition Number_toString (n : Z) : string :=
  NilZero.string_of_int (Z.to_int n).

(** The inverse reading of a decimal numeral, used to parse header
    values. *)
Definition Number_parse (s : string) : option Z :=
  match NilZero.int_of_string s with
  | Some d => Some (Z.of_int d)
  | None => None
  end.

(** [string | number], the type of a workflow identifier. *)
Inductive StringOrNumber :=
| Str (s : string)
| Num (n : Z).

(** Template-literal interpolation of a [string | number]. *)
Definition toString (v : StringOrNumber) : string :=
  match v with
  | Str s => s
  | Num n => Number_toString n
  end.

(** Template-literal interpolation of an optional [string | number]. *)
Definition interpolate (v : option StringOrNumber) : string :=
  match v with
  | Some x => toString x
  | None => "undefined"
  end.

(** [ToBoolean] on an optional [string | number]: [undefined], [0] and the
    empty string are falsy. *)
Definition truthy (v : option StringOrNumber) : bool :=
  match v with
  | None => false
  | Some (Str s) => negb (String.eqb s "")
  | Some (Num n) => negb (n =? 0)
  end.

(** [ToBoolean] on an optional boolean. *)
Definition truthy_bool (v : option bool) : bool :=
  match v with
  | None => false
  | Some b => b
  end.

(** [haystack.includes(needle)] as a proposition. *)
Definition includes (haystack needle : string) : Prop :=
  exists pre post, haystack = pre +:+ needle +:+ post.

(** [haystack.includes(needle)] as a test. *)
Fixpoint includesb (haystack needle : string) : bool :=
  String.prefix needle haystack
  || match haystack with
     | String _ rest => includesb rest needle
     | EmptyString => false
     end.

(** Dynamically typed values: decoded JSON, plus [undefined]. Objects keep
    their properties in insertion order. *)
Unset Elimination Schemes.
Inductive Value :=
| VUndefined
| VNull
| VBool (b : bool)
| VNum (n : Z)
| VStr (s : string)
| VArr (items : list Value)
| VObj (props : list (string * Value)).
Set Elimination Schemes.

(** Property read [o[k]]: [undefined] when the property is missing. *)
Fixpoint get (k : string) (props : list (string * Value)) : Value :=
  match props with
  | [] => VUndefined
  | (k', v) :: rest => if String.eqb k k' then v else get k rest
  end.

(** [k in o]. *)
Fixpoint has (k : string) (props : list (string * Value)) : bool :=
  match props with
  | [] => false
  | (k', _) :: rest => String.eqb k k' || has k rest
  end.

Definition is_undefined (v : Value) : bool :=
  match v with VUndefined => true | _ => false end.

End Js.
Export Js.

(** ** The fragment of zod used by the schemas

    [z.object] validates every declared key, collects the issues of all of
    them, and strips undeclared keys; [.optional()] admits [undefined];
    [z.union] takes the first option that accepts the input. *)

Module Zod.

Inductive PathSegment :=
| Key (k : string)
| Index (i : nat).

Inductive IssueCode :=
| invalid_type (expected : string)
| invalid_enum_value (allowed : list string)
| invalid_union.

Record ZodIssue := {
  code : IssueCode;
  path : list PathSegment;
  received : Value
}.

Unset Elimination Schemes.
Inductive ZodType :=
| z_string
| z_number
| z_boolean
| z_enum (values : list string)
| z_union (options : list ZodType)
| z_record (valueType : ZodType)
| z_array (element : ZodType)
| z_object (shape : list (string * ZodType))
| z_optional (inner : ZodType)
| z_nullable (inner : ZodType)
| z_describe (inner : ZodType) (description : string).
Set Elimination Schemes.

Inductive ParseResult :=
| Valid (value : Value)
| Invalid (issues : list ZodIssue).

Definition issue (c : IssueCode) (p : list PathSegment) (input : Value) : ZodIssue :=
  {| code := c; path := p; received := input |}.

Section Collect.

Variable parse_at : ZodType -> list PathSegment -> Value -> ParseResult.

(** The declared keys of an object, in declaration order.  A key is set in
    the output when its parsed value is defined or the key is in the input. *)
Fixpoint parse_shape (p : list PathSegment) (props : list (string * Value))
    (shape : list (string * ZodType)) : list (string * Value) * list ZodIssue :=
  match shape with
  | [] => ([], [])
  | (k, t) :: rest =>
      let '(out, issues) := parse_shape p props rest in
      match parse_at t (p ++ [Key k]) (get k props) with
      | Valid v =>
          (if is_undefined v && negb (has k props) then out else (k, v) :: out,
           issues)
      | Invalid found => (out, found ++ issues)
      end
  end.

(** The elements of an array, each at its index. *)
Fixpoint parse_items (t : ZodType) (p : list PathSegment) (i : nat)
    (items : list Value) : list Value * list ZodIssue :=
  match items with
  | [] => ([], [])
  | x :: rest =>
      let '(out, issues) := parse_items t p (S i) rest in
      match parse_at t (p ++ [Index i]) x with
      | Valid v => (v :: out, issues)
      | Invalid found => (out, found ++ issues)
      end
  end.

(** The entries of a record: every key of the input, its value read back
    from the input and parsed under that key. *)
Fixpoint parse_entries (t : ZodType) (p : list PathSegment)
    (data keys : list (string * Value)) : list (string * Value) * list ZodIssue :=
  match keys with
  | [] => ([], [])
  | (k, _) :: rest =>
      let '(out, issues) := parse_entries t p data rest in
      match parse_at t (p ++ [Key k]) (get k data) with
      | Valid v => ((k, v) :: out, issues)
      | Invalid found => (out, found ++ issues)
      end
  end.

(** The first option of a union that accepts the input. *)
Fixpoint parse_first (p : list PathSegment) (input : Value)
    (options : list ZodType) : ParseResult :=
  match options with
  | [] => Invalid [issue invalid_union p input]
  | t :: rest =>
      match parse_at t p input with
      | Valid v => Valid v
      | Invalid _ => parse_first p input rest
      end
  end.

End Collect.

(** [util.joinValues]: the alternatives of an enum as zod reports them. *)
Fixpoint joinValues (values : list string) : string :=
  match values with
  | [] => ""
  | [v] => "'" +:+ v +:+ "'"
  | v :: rest => "'" +:+ v +:+ "' | " +:+ joinValues rest
  end.

Definition finish {A : Type} (wrap : A -> Value) (r : A * list ZodIssue) : ParseResult :=
  match r with
  | (out, []) => Valid (wrap out)
  | (_, issues) => Invalid issues
  end.

Fixpoint parse_at (t : ZodType) (p : list PathSegment) (input : Value) {struct t}
    : ParseResult :=
  match t with
  | z_string =>
      match input with
      | VStr _ => Valid input
      | _ => Invalid [issue (invalid_type "string") p input]
      end
  | z_number =>
      match input with
      | VNum _ => Valid input
      | _ => Invalid [issue (invalid_type "number") p input]
      end
  | z_boolean =>
      match input with
      | VBool _ => Valid input
      | _ => Invalid [issue (invalid_type "boolean") p input]
      end
  | z_enum values =>
      match input with
      | VStr s =>
          if existsb (String.eqb s) values then Valid input
          else Invalid [issue (invalid_enum_value values) p input]
      | _ => Invalid [issue (invalid_type (joinValues values)) p input]
      end
  | z_union options => parse_first parse_at p input options
  | z_record valueType =>
      match input with
      | VObj props => finish VObj (parse_entries parse_at valueType p props props)
      | _ => Invalid [issue (invalid_type "object") p input]
      end
  | z_array element =>
      match input with
      | VArr items => finish VArr (parse_items parse_at element p 0 items)
      | _ => Invalid [issue (invalid_type "array") p input]
      end
  | z_object shape =>
      match input with
      | VObj props => finish VObj (parse_shape parse_at p props shape)
      | _ => Invalid [issue (invalid_type "object") p input]
      end
  | z_optional inner =>
      match input with
      | VUndefined => Valid VUndefined
      | _ => parse_at inner p input
      end
  | z_nullable inner =>
      match input with
      | VNull => Valid VNull
      | _ => parse_at inner p input
      end
  | z_describe inner _ => parse_at inner p input
  end.



(** [schema.safeParse(input)]. *)
Definition safeParse (t : ZodType) (input : Value) : ParseResult :=
  parse_at t [] input.

(** [schema.shape] of an object schema. *)
Definition shape_of (t : ZodType) : list (string * ZodType) :=
  match t with
  | z_object shape => shape
  | _ => []
  end.

(** [schema.isOptional()]: whether the schema accepts [undefined], that is,
    whether a key declared with it may be left out. *)
Definition isOptional (t : ZodType) : bool :=
  match safeParse t VUndefined with
  | Valid _ => true
  | Invalid _ => false
  end.

End Zod.
Export Zod.

(** ** The error taxonomy ([common/errors.js], as used by [index.ts]) *)

Module Errors.

(** The classified errors with the kind-specific fields that
    [formatGitHubError] reads: [response], [resetAt], [timeoutMs],
    [errorCode].  A reset time is the epoch value carried by the header;
    [None] is the invalid date obtained from a header that is not a
    numeral. *)
Inductive GitHubError :=
| GitHubValidationError (message : string) (response : Value)
| GitHubResourceNotFoundError (message : string)
| GitHubAuthenticationError (message : string)
| GitHubPermissionError (message : string)
| GitHubRateLimitError (message : string) (resetAt : option Z)
| GitHubConflictError (message : string)
| GitHubTimeoutError (message : string) (timeoutMs : Z)
| GitHubNetworkError (message : string) (errorCode : string)
| GitHubApiError (message : string) (status : Z) (response : Value).

(** Anything an operation can throw. *)
Inductive Exception :=
| GitHub (e : GitHubError)
| ZodError (issues : list ZodIssue)
| PlainError (message : string).

(** [error.message] of a classified error. *)
Definition messageOf (e : GitHubError) : string :=
  match e with
  | GitHubValidationError message _ => message
  | GitHubResourceNotFoundError message => message
  | GitHubAuthenticationError message => message
  | GitHubPermissionError message => message
  | GitHubRateLimitError message _ => message
  | GitHubConflictError message => message
  | GitHubTimeoutError message _ => message
  | GitHubNetworkError message _ => message
  | GitHubApiError message _ _ => message
  end.

Definition isGitHubError (e : Exception) : bool :=
  match e with GitHub _ => true | _ => false end.

(** How a call completes. *)
Inductive Completion (A : Type) :=
| Return (a : A)
| Throw (e : Exception).

Arguments Return {A} a.
Arguments Throw {A} e.

(** [schema.parse(input)]: the parsed value, or a thrown [ZodError]. *)
Definition parse (t : ZodType) (input : Value) : Completion Value :=
  match safeParse t input with
  | Valid v => Return v
  | Invalid issues => Throw (ZodError issues)
  end.

End Errors.
Export Errors.

(** ** Requests, and asynchronous computations that issue them *)

Module Http.

(** The body of a dispatch request, as [triggerWorkflow] types it:
    [{ ref: string; inputs?: Record<string, string> }]. *)
Record DispatchBody := {
  ref : string;
  inputs : option (gmap string string)
}.

(** [Object.keys] of a dispatch body. *)
Definition Object_keys (b : DispatchBody) : list string :=
  "ref" :: match inputs b with Some _ => ["inputs"] | None => [] end.

(** The second argument of [githubRequest]. *)
Record RequestOptions := {
  method : option string;
  body : option DispatchBody
}.

Definition no_options : RequestOptions := {| method := None; body := None |}.

(** One invocation of the HTTP adapter. *)
Record Request := {
  url : string;
  options : RequestOptions
}.

(** An [async] computation: it extends the log of adapter invocations and
    completes. *)
Definition Async (A : Type) : Type :=
  list Request -> Completion A * list Request.

Definition ret {A : Type} (a : A) : Async A :=
  fun log => (Return a, log).

Definition throw {A : Type} (e : Exception) : Async A :=
  fun log => (Throw e, log).

Definition bind {A B : Type} (m : Async A) (k : A -> Async B) : Async B :=
  fun log =>
    match m log with
    | (Return a, log') => k a log'
    | (Throw e, log') => (Throw e, log')
    end.

(** A synchronous call inside an [async] function. *)
Definition call {A : Type} (c : Completion A) : Async A :=
  fun log => (c, log).

(** The requests a computation issues when started on an empty log, and
    how it completes. *)
Definition run {A : Type} (m : Async A) : Completion A * list Request :=
  m [].

Definition requests {A : Type} (m : Async A) : list Request := snd (run m).

Definition completion {A : Type} (m : Async A) : Completion A := fst (run m).

End Http.
Export Http.

Notation "'let*' x ':=' m 'in' k" := (bind m (fun x => k))
  (at level 10, x name, m at level 100, k at level 200).

(** ** The collaborators imported from [common/utils.js] *)

Module Utils.

(** *** The HTTP client adapter *)

(** Modelled from the spec: what the upstream sends back (component design
    4.3).  Header names are lower-case; [payload] is the decoded JSON body,
    [None] for an empty body. *)
Record Response := {
  statusCode : Z;
  headers : gmap string string;
  payload : option Value
}.

(** Modelled from the spec: what awaiting the transport yields: a timeout,
    a transport failure with its error code, or a response (component
    design 4.3). *)
Inductive Outcome :=
| TimedOut
| Failed (errorCode : string)
| Responded (r : Response).

(** Modelled from the spec: the environment of the adapter: the transport
    with the upstream behind it, the configured timeout, the wording of
    error messages and the test for a validation-shaped error body.  None of
    them is fixed by the operations or by the spec. *)
Class Adapter := {
  fetch : Request -> Outcome;
  timeoutMs : Z;
  wording : Outcome -> string;
  validationShaped : Value -> bool
}.

Definition RATE_LIMIT_REMAINING : string := "x-ratelimit-remaining".
Definition RATE_LIMIT_RESET : string := "x-ratelimit-reset".

(** Modelled from the spec: the remaining quota announced by a response is
    zero (component design 4.3, design note on the 403 heuristic). *)
Definition quotaExhausted (r : Response) : bool :=
  match headers r !! RATE_LIMIT_REMAINING with
  | Some h =>
      match Number_parse h with
      | Some n => n =? 0
      | None => false
      end
  | None => false
  end.

(** Modelled from the spec: the reset timestamp parsed from its header. *)
Definition resetTime (r : Response) : option Z :=
  match headers r !! RATE_LIMIT_RESET with
  | Some h => Number_parse h
  | None => None
  end.

Definition decoded (r : Response) : Value :=
  match payload r with
  | Some v => v
  | None => VNull
  end.

Section WithAdapter.

Context `{Adapter}.

(** Modelled from the spec: the status-to-kind mapping of the error
    classifier (component design 4.3); [common/errors.js] and
    [common/utils.js] are not part of the sources. *)
Definition createGitHubError (r : Response) : GitHubError :=
  let message := wording (Responded r) in
  if statusCode r =? 401 then GitHubAuthenticationError message
  else if statusCode r =? 403 then
    if quotaExhausted r then GitHubRateLimitError message (resetTime r)
    else GitHubPermissionError message
  else if statusCode r =? 404 then GitHubResourceNotFoundError message
  else if statusCode r =? 409 then GitHubConflictError message
  else if statusCode r =? 422 then GitHubValidationError message (decoded r)
  else if (400 <=? statusCode r) && (statusCode r <? 500) && validationShaped (decoded r)
  then GitHubValidationError message (decoded r)
  else GitHubApiError message (statusCode r) (decoded r).

(** Modelled from the spec: what the adapter makes of the awaited outcome
    (component design 4.3): timeout, transport failure, non-2xx status,
    2xx with or without a body. *)
Definition settle (o : Outcome) : Completion Value :=
  match o with
  | TimedOut => Throw (GitHub (GitHubTimeoutError (wording o) timeoutMs))
  | Failed errorCode => Throw (GitHub (GitHubNetworkError (wording o) errorCode))
  | Responded r =>
      if (200 <=? statusCode r) && (statusCode r <? 300) then Return (decoded r)
      else Throw (GitHub (createGitHubError r))
  end.

(** Modelled from the spec: [githubRequest(url, options)] issues one request
    and settles on what comes back; [common/utils.js] is not part of the
    sources. *)
Definition githubRequest (url : string) (options : RequestOptions) : Async Value :=
  fun log =>
    let request := {| url := url; options := options |} in
    (settle (fetch request), log ++ [request]).

End WithAdapter.

(** *** The URL / query builder *)

(** Modelled from the spec: the values a query parameter may take
    (component design 4.2). *)
Inductive QueryValue :=
| QStr (s : string)
| QNum (n : Z)
| QBool (b : bool).

(** Modelled from the spec: standard string conversion; booleans become
    the literal strings true and false (component design 4.2). *)
Definition QueryValue_toString (v : QueryValue) : string :=
  match v with
  | QStr s => s
  | QNum n => Number_toString n
  | QBool true => "true"
  | QBool false => "false"
  end.

Definition in_range (lo hi c : ascii) : bool :=
  (N.leb (N_of_ascii lo) (N_of_ascii c)) && (N.leb (N_of_ascii c) (N_of_ascii hi)).

Definition isAlphanumeric (c : ascii) : bool :=
  in_range "a" "z" c || in_range "A" "Z" c || in_range "0" "9" c.

(** Modelled from the spec: percent-encoding; the characters that stand for
    themselves in a URL component are the unreserved ones. *)
Definition unreserved (c : ascii) : bool :=
  isAlphanumeric c
  || Ascii.eqb c "-" || Ascii.eqb c "_" || Ascii.eqb c "." || Ascii.eqb c "~".

Definition hexDigit (n : N) : ascii :=
  if N.ltb n 10 then ascii_of_N (48 + n) else ascii_of_N (55 + n).

Definition percentEncodeChar (c : ascii) : string :=
  if unreserved c then String c ""
  else
    let n := N_of_ascii c in
    String "%" (String (hexDigit (N.div n 16)) (String (hexDigit (N.modulo n 16)) "")).

Fixpoint percentEncode (s : string) : string :=
  match s with
  | EmptyString => ""
  | String c rest => percentEncodeChar c +:+ percentEncode rest
  end.

(** Modelled from the spec: the defined entries of a parameter mapping, in
    declaration order, each value converted to a string; entries whose
    value is absent are left out (component design 4.2). *)
Fixpoint queryEntries (params : list (string * option QueryValue))
    : list (string * string) :=
  match params with
  | [] => []
  | (k, Some v) :: rest => (k, QueryValue_toString v) :: queryEntries rest
  | (_, None) :: rest => queryEntries rest
  end.

Definition encodeEntry (e : string * string) : string :=
  percentEncode (fst e) +:+ "=" +:+ percentEncode (snd e).

Fixpoint joinEntries (entries : list (string * string)) : string :=
  match entries with
  | [] => ""
  | [e] => encodeEntry e
  | e :: rest => encodeEntry e +:+ "&" +:+ joinEntries rest
  end.

Definition queryString (entries : list (string * string)) : string :=
  match entries with
  | [] => ""
  | _ => "?" +:+ joinEntries entries
  end.

(** Modelled from the spec: [buildUrl(base, params)] appends to the base
    path the keys whose value is defined, percent-encoded, in declaration
    order (component design 4.2); [common/utils.js] is not part of the
    sources. *)
Definition buildUrl (base : string) (params : list (string * option QueryValue))
    : string :=
  base +:+ queryString (queryEntries params).

(** [url.searchParams.get(key)] on the entries of a built URL. *)
Fixpoint searchParam (key : string) (entries : list (string * string))
    : option string :=
  match entries with
  | [] => None
  | (k, v) :: rest => if String.eqb key k then Some v else searchParam key rest
  end.

(** *** The syntactic validators *)

(** Each validator returns the name to use in the URL or throws. *)
Class Validators := {
  validateOwnerName : string -> Completion string;
  validateRepositoryName : string -> Completion string
}.

Definition allChars (ok : ascii -> bool) (s : string) : bool :=
  forallb ok (list_ascii_of_string s).

Definition firstChar (s : string) : option ascii :=
  match s with
  | EmptyString => None
  | String c _ => Some c
  end.

Definition lastChar (s : string) : option ascii :=
  last (list_ascii_of_string s).

Definition isHyphen (c : option ascii) : bool :=
  match c with
  | Some c => Ascii.eqb c "-"
  | None => false
  end.

Definition ownerChar (c : ascii) : bool :=
  isAlphanumeric c || Ascii.eqb c "-".

Definition repositoryChar (c : ascii) : bool :=
  isAlphanumeric c || Ascii.eqb c "-" || Ascii.eqb c "_" || Ascii.eqb c ".".

Definition validationError (message : string) : Exception :=
  GitHub (GitHubValidationError message VUndefined).

(** Modelled from the spec: the naming rules of an account name: not
    empty, at most 39 characters, letters, digits and hyphens, no hyphen
    first or last (component design 4.1); the validator itself is in
    [common/utils.js], which is not part of the sources. *)
Definition accountNameRules (owner : string) : Completion string :=
  if String.eqb owner "" then
    Throw (validationError "Owner name cannot be empty")
  else if Nat.ltb 39 (String.length owner) then
    Throw (validationError "Owner name is too long")
  else if negb (allChars ownerChar owner) then
    Throw (validationError "Owner name contains characters that are not allowed")
  else if isHyphen (firstChar owner) || isHyphen (lastChar owner) then
    Throw (validationError "Owner name cannot start or end with a hyphen")
  else Return owner.

(** Modelled from the spec: the naming rules of a repository name: not
    empty, at most 100 characters, letters, digits, hyphens, underscores
    and periods (component design 4.1). *)
Definition repositoryNameRules (repo : string) : Completion string :=
  if String.eqb repo "" then
    Throw (validationError "Repository name cannot be empty")
  else if Nat.ltb 100 (String.length repo) then
    Throw (validationError "Repository name is too long")
  else if negb (allChars repositoryChar repo) then
    Throw (validationError "Repository name contains characters that are not allowed")
  else Return repo.

Definition namingRules : Validators := {|
  validateOwnerName := accountNameRules;
  validateRepositoryName := repositoryNameRules
|}.

End Utils.
Export Utils.

(** ** The response shapes imported from [common/types.js]

    The shapes themselves are not part of the sources; the operations are
    stated for any shapes written in the fragment above. *)

Class Types := {
  WorkflowRunsSchema : ZodType;
  WorkflowRunSchema : ZodType;
  JobsSchema : ZodType;
  WorkflowsSchema : ZodType;
  WorkflowSchema : ZodType;
  WorkflowUsageSchema : ZodType
}.

(** ** [src/operations/actions.ts] *)

Module Actions.

(** *** Schema definitions *)

Definition ListWorkflowsSchema : ZodType := z_object [
  ("owner", z_describe z_string "Repository owner (username or organization)");
  ("repo", z_describe z_string "Repository name");
  ("page", z_describe (z_optional z_number) "Page number for pagination");
  ("perPage", z_describe (z_optional z_number) "Results per page (max 100)")
].

Definition GetWorkflowSchema : ZodType := z_object [
  ("owner", z_describe z_string "Repository owner (username or organization)");
  ("repo", z_describe z_string "Repository name");
  ("workflowId", z_describe (z_union [z_string; z_number]) "The ID of the workflow or filename")
].

Definition GetWorkflowUsageSchema : ZodType := GetWorkflowSchema.

Definition ListWorkflowRunsSchema : ZodType := z_object [
  ("owner", z_describe z_string "Repository owner (username or organization)");
  ("repo", z_describe z_string "Repository name");
  ("workflowId", z_describe (z_optional (z_union [z_string; z_number])) "The ID of the workflow or filename");
  ("actor", z_describe (z_optional z_string) "Returns someone's workflow runs. Use the login for the user");
  ("branch", z_describe (z_optional z_string) "Returns workflow runs associated with a branch");
  ("event", z_describe (z_optional z_string) "Returns workflow runs triggered by the event");
  ("status", z_describe (z_optional (z_enum ["completed"; "action_required"; "cancelled"; "failure"; "neutral"; "skipped"; "stale"; "success"; "timed_out"; "in_progress"; "queued"; "requested"; "waiting"; "pending"])) "Returns workflow runs with the check run status");
  ("created", z_describe (z_optional z_string) "Returns workflow runs created within date range (YYYY-MM-DD)");
  ("excludePullRequests", z_describe (z_optional z_boolean) "If true, pull requests are omitted from the response");
  ("checkSuiteId", z_describe (z_optional z_number) "Returns workflow runs with the check_suite_id");
  ("page", z_describe (z_optional z_number) "Page number for pagination");
  ("perPage", z_describe (z_optional z_number) "Results per page (max 100)")
].

Definition GetWorkflowRunSchema : ZodType := z_object [
  ("owner", z_describe z_string "Repository owner (username or organization)");
  ("repo", z_describe z_string "Repository name");
  ("runId", z_describe z_number "The ID of the workflow run")
].

Definition GetWorkflowRunJobsSchema : ZodType := z_object [
  ("owner", z_describe z_string "Repository owner (username or organization)");
  ("repo", z_describe z_string "Repository name");
  ("runId", z_describe z_number "The ID of the workflow run");
  ("filter", z_describe (z_optional (z_enum ["latest"; "all"])) "Filter jobs by their completed_at date");
  ("page", z_describe (z_optional z_number) "Page number for pagination");
  ("perPage", z_describe (z_optional z_number) "Results per page (max 100)")
].

Definition TriggerWorkflowSchema : ZodType := z_object [
  ("owner", z_describe z_string "Repository owner (username or organization)");
  ("repo", z_describe z_string "Repository name");
  ("workflowId", z_describe (z_union [z_string; z_number]) "The ID of the workflow or filename");
  ("ref", z_describe z_string "The reference of the workflow run (branch, tag, or SHA)");
  ("inputs", z_describe (z_optional (z_record z_string)) "Input parameters for the workflow")
].

Definition CancelWorkflowRunSchema : ZodType := z_object [
  ("owner", z_describe z_string "Repository owner (username or organization)");
  ("repo", z_describe z_string "Repository name");
  ("runId", z_describe z_number "The ID of the workflow run")
].

Definition RerunWorkflowSchema : ZodType := CancelWorkflowRunSchema.

(** *** Response types *)

Record SuccessResponse := {
  success : bool;
  message : string
}.

(** The options bag of [listWorkflowRuns]. *)
Record ListWorkflowRunsOptions := {
  workflowId : option StringOrNumber;
  actor : option string;
  branch : option string;
  event : option string;
  status : option string;
  created : option string;
  excludePullRequests : option bool;
  checkSuiteId : option Z;
  page : option Z;
  perPage : option Z
}.

(** The default [options = {}]. *)
Definition empty_options : ListWorkflowRunsOptions := {|
  workflowId := None; actor := None; branch := None; event := None;
  status := None; created := None; excludePullRequests := None;
  checkSuiteId := None; page := None; perPage := None
|}.

(** *** Function implementations *)

Section Operations.

Context `{Validators} `{Adapter} `{Types}.

Definition listWorkflows (owner repo : string) (page perPage : option Z)
    : Async Value :=
  let* owner := call (validateOwnerName owner) in
  let* repo := call (validateRepositoryName repo) in
  let url :=
    buildUrl ("https://api.github.com/repos/" +:+ owner +:+ "/" +:+ repo +:+ "/actions/workflows")
      [("page", QNum <$> page);
       ("per_page", QNum <$> perPage)] in
  let* response := githubRequest url no_options in
  call (parse WorkflowsSchema response).

Definition getWorkflow (owner repo : string) (workflowId : StringOrNumber)
    : Async Value :=
  let* owner := call (validateOwnerName owner) in
  let* repo := call (validateRepositoryName repo) in
  let url :=
    "https://api.github.com/repos/" +:+ owner +:+ "/" +:+ repo
      +:+ "/actions/workflows/" +:+ toString workflowId in
  let* response := githubRequest url no_options in
  call (parse WorkflowSchema response).

Definition getWorkflowUsage (owner repo : string) (workflowId : StringOrNumber)
    : Async Value :=
  let* owner := call (validateOwnerName owner) in
  let* repo := call (validateRepositoryName repo) in
  let url :=
    "https://api.github.com/repos/" +:+ owner +:+ "/" +:+ repo
      +:+ "/actions/workflows/" +:+ toString workflowId +:+ "/timing" in
  let* response := githubRequest url no_options in
  call (parse WorkflowUsageSchema response).

(** The [if (options.workflowId)] of [listWorkflowRuns]: the path the
    query is appended to. *)
Definition runsPath (owner repo : string) (options : ListWorkflowRunsOptions)
    : string :=
  if truthy (workflowId options) then
    "https://api.github.com/repos/" +:+ owner +:+ "/" +:+ repo
      +:+ "/actions/workflows/" +:+ interpolate (workflowId options) +:+ "/runs"
  else
    "https://api.github.com/repos/" +:+ owner +:+ "/" +:+ repo +:+ "/actions/runs".

(** The mapping [listWorkflowRuns] hands to [buildUrl]. *)
Definition runsQuery (options : ListWorkflowRunsOptions)
    : list (string * option QueryValue) :=
  [("actor", QStr <$> actor options);
   ("branch", QStr <$> branch options);
   ("event", QStr <$> event options);
   ("status", QStr <$> status options);
   ("created", QStr <$> created options);
   ("exclude_pull_requests",
      if truthy_bool (excludePullRequests options) then Some (QStr "true") else None);
   ("check_suite_id", QNum <$> checkSuiteId options);
   ("page", QNum <$> page options);
   ("per_page", QNum <$> perPage options)].

Definition listWorkflowRuns (owner repo : string) (options : ListWorkflowRunsOptions)
    : Async Value :=
  let* owner := call (validateOwnerName owner) in
  let* repo := call (validateRepositoryName repo) in
  let url := runsPath owner repo options in
  let url := buildUrl url (runsQuery options) in
  let* response := githubRequest url no_options in
  call (parse WorkflowRunsSchema response).

Definition getWorkflowRun (owner repo : string) (runId : Z) : Async Value :=
  let* owner := call (validateOwnerName owner) in
  let* repo := call (validateRepositoryName repo) in
  let url :=
    "https://api.github.com/repos/" +:+ owner +:+ "/" +:+ repo
      +:+ "/actions/runs/" +:+ Number_toString runId in
  let* response := githubRequest url no_options in
  call (parse WorkflowRunSchema response).

Definition getWorkflowRunJobs (owner repo : string) (runId : Z)
    (filter : option string) (page perPage : option Z) : Async Value :=
  let* owner := call (validateOwnerName owner) in
  let* repo := call (validateRepositoryName repo) in
  let url :=
    buildUrl ("https://api.github.com/repos/" +:+ owner +:+ "/" +:+ repo
                +:+ "/actions/runs/" +:+ Number_toString runId +:+ "/jobs")
      [("filter", QStr <$> filter);
       ("page", QNum <$> page);
       ("per_page", QNum <$> perPage)] in
  let* response := githubRequest url no_options in
  call (parse JobsSchema response).

Definition triggerWorkflow (owner repo : string) (workflowId : StringOrNumber)
    (ref : string) (inputs : option (gmap string string)) : Async SuccessResponse :=
  let* owner := call (validateOwnerName owner) in
  let* repo := call (validateRepositoryName repo) in
  let url :=
    "https://api.github.com/repos/" +:+ owner +:+ "/" +:+ repo
      +:+ "/actions/workflows/" +:+ toString workflowId +:+ "/dispatches" in
  let body := Build_DispatchBody ref None in
  let body :=
    match inputs with
    | Some given =>
        if Nat.ltb 0 (size given) then Build_DispatchBody ref (Some given)
        else body
    | None => body
    end in
  let* _ := githubRequest url {| method := Some "POST"; body := Some body |} in
  ret {| success := true;
         message := "Workflow " +:+ toString workflowId +:+ " triggered on " +:+ ref |}.

Definition cancelWorkflowRun (owner repo : string) (runId : Z)
    : Async SuccessResponse :=
  let* owner := call (validateOwnerName owner) in
  let* repo := call (validateRepositoryName repo) in
  let url :=
    "https://api.github.com/repos/" +:+ owner +:+ "/" +:+ repo
      +:+ "/actions/runs/" +:+ Number_toString runId +:+ "/cancel" in
  let* _ := githubRequest url {| method := Some "POST"; body := None |} in
  ret {| success := true;
         message := "Workflow run " +:+ Number_toString runId +:+ " cancelled" |}.

Definition rerunWorkflowRun (owner repo : string) (runId : Z)
    : Async SuccessResponse :=
  let* owner := call (validateOwnerName owner) in
  let* repo := call (validateRepositoryName repo) in
  let url :=
    "https://api.github.com/repos/" +:+ owner +:+ "/" +:+ repo
      +:+ "/actions/runs/" +:+ Number_toString runId +:+ "/rerun" in
  let* _ := githubRequest url {| method := Some "POST"; body := None |} in
  ret {| success := true;
         message := "Workflow run " +:+ Number_toString runId +:+ " restarted" |}.

End Operations.

End Actions.
Export Actions.

(** ** [src/index.ts]: the tool surface *)

Module Index.

(** The operation a tool handler calls. *)
Inductive Operation :=
| ListWorkflows
| GetWorkflow
| GetWorkflowUsage
| ListWorkflowRuns
| GetWorkflowRun
| GetWorkflowRunJobs
| TriggerWorkflow
| CancelWorkflowRun
| RerunWorkflowRun.

(** One [server.tool(name, description, shape, handler)] registration. *)
Record Tool := {
  name : string;
  description : string;
  paramsSchema : list (string * ZodType);
  handler : Operation
}.

(** The registrations, in the order [index.ts] makes them. *)
Definition tools : list Tool := [
  {| name := "list_workflows";
     description := "List workflows in a GitHub repository";
     paramsSchema := shape_of ListWorkflowsSchema;
     handler := ListWorkflows |};
  {| name := "get_workflow";
     description := "Get details of a specific workflow";
     paramsSchema := shape_of GetWorkflowSchema;
     handler := GetWorkflow |};
  {| name := "get_workflow_usage";
     description := "Get usage statistics of a workflow";
     paramsSchema := shape_of GetWorkflowUsageSchema;
     handler := GetWorkflowUsage |};
  {| name := "list_workflow_runs";
     description := "List all workflow runs for a repository or a specific workflow";
     paramsSchema := shape_of ListWorkflowRunsSchema;
     handler := ListWorkflowRuns |};
  {| name := "get_workflow_run";
     description := "Get details of a specific workflow run";
     paramsSchema := shape_of GetWorkflowRunSchema;
     handler := GetWorkflowRun |};
  {| name := "get_workflow_run_jobs";
     description := "Get details of a specific workflow run";
     paramsSchema := shape_of GetWorkflowRunJobsSchema;
     handler := GetWorkflowRunJobs |};
  {| name := "trigger_workflow";
     description := "Trigger a workflow run";
     paramsSchema := shape_of TriggerWorkflowSchema;
     handler := TriggerWorkflow |};
  {| name := "cancel_workflow_run";
     description := "Cancel a workflow run";
     paramsSchema := shape_of CancelWorkflowRunSchema;
     handler := CancelWorkflowRun |};
  {| name := "rerun_workflow";
     description := "Re-run a workflow run";
     paramsSchema := shape_of RerunWorkflowSchema;
     handler := RerunWorkflowRun |}
].

(** The tool registered under a name. *)
Definition findTool (n : string) : option Tool :=
  List.find (fun t => String.eqb (name t) n) tools.

(** The parameters a caller must supply, and those it may leave out. *)
Definition requiredParams (t : Tool) : list string :=
  map fst (List.filter (fun f => negb (isOptional (snd f))) (paramsSchema t)).

Definition optionalParams (t : Tool) : list string :=
  map fst (List.filter (fun f => isOptional (snd f)) (paramsSchema t)).

(** A row of the external-interface table: tool, required parameters,
    optional parameters. *)
Definition row (t : Tool) : string * list string * list string :=
  (name t, requiredParams t, optionalParams t).

(** Modelled from the spec: the external-interface table (section 6), one
    row per tool. *)
Definition interfaceTable : list (string * list string * list string) := [
  ("list_workflows", ["owner"; "repo"], ["page"; "perPage"]);
  ("get_workflow", ["owner"; "repo"; "workflowId"], []);
  ("get_workflow_usage", ["owner"; "repo"; "workflowId"], []);
  ("list_workflow_runs", ["owner"; "repo"],
     ["workflowId"; "actor"; "branch"; "event"; "status"; "created";
      "excludePullRequests"; "checkSuiteId"; "page"; "perPage"]);
  ("get_workflow_run", ["owner"; "repo"; "runId"], []);
  ("get_workflow_run_jobs", ["owner"; "repo"; "runId"], ["filter"; "page"; "perPage"]);
  ("trigger_workflow", ["owner"; "repo"; "workflowId"; "ref"], ["inputs"]);
  ("cancel_workflow_run", ["owner"; "repo"; "runId"], []);
  ("rerun_workflow_run", ["owner"; "repo"; "runId"], [])
].

(** A table with one tool name replaced by another. *)
Definition renamed (old new : string)
    (table : list (string * list string * list string))
    : list (string * list string * list string) :=
  map (fun r => (if String.eqb (fst (fst r)) old then new else fst (fst r),
                 snd (fst r), snd r)) table.

End Index.
Export Index.

(** ** What it means for a body to match a shape *)

Module Shapes.

Fixpoint distinct (keys : list string) : bool :=
  match keys with
  | [] => true
  | k :: rest => negb (existsb (String.eqb k) rest) && distinct rest
  end.





End Shapes.
Export Shapes.

(** ** Notions used to state the properties *)

Module Notions.

(** A computation that throws without having invoked the adapter, whatever
    was logged before. *)
Definition abortsBeforeRequest {A : Type} (m : Async A) : Prop :=
  forall log, exists e, m log = (Throw e, log).

(** A URL targets a path when it is the path followed by a query string. *)
Definition targets (u path : string) : Prop :=
  exists entries, u = path +:+ queryString entries.

Definition perWorkflowRunsPath (owner repo id : string) : string :=
  "https://api.github.com/repos/" +:+ owner +:+ "/" +:+ repo
    +:+ "/actions/workflows/" +:+ id +:+ "/runs".

Definition repositoryRunsPath (owner repo : string) : string :=
  "https://api.github.com/repos/" +:+ owner +:+ "/" +:+ repo +:+ "/actions/runs".


Section WithCollaborators.

Context `{Validators}.

(** The owner or the repository name fails syntactic validation. *)
Definition failsValidation (owner repo : string) : Prop :=
  (exists e, validateOwnerName owner = Throw e)
  \/ (exists e, validateRepositoryName repo = Throw e).

(** Both names pass, giving the names used in the URL. *)
Definition passesValidation (owner repo owner' repo' : string) : Prop :=
  validateOwnerName owner = Return owner'
  /\ validateRepositoryName repo = Return repo'.

(** The error of the first validator that fails, owner first. *)
Definition firstFailure (owner repo : string) : option Exception :=
  match validateOwnerName owner with
  | Throw e => Some e
  | Return _ =>
      match validateRepositoryName repo with
      | Throw e => Some e
      | Return _ => None
      end
  end.

(** Every field error found in the repository reference. *)
Definition fieldErrors (owner repo : string) : list Exception :=
  match validateOwnerName owner with Throw e => [e] | Return _ => [] end
  ++ match validateRepositoryName repo with Throw e => [e] | Return _ => [] end.

End WithCollaborators.

(** A computation that throws exactly [e] without having invoked the
    adapter. *)
Definition throwsExactly {A : Type} (m : Async A) (e : Exception) : Prop :=
  forall log, m log = (Throw e, log).

(** A thrown error enumerates a field error when it is a validation error
    whose message contains the message of the field error. *)
Definition reports (thrown fieldError : Exception) : Prop :=
  match thrown, fieldError with
  | GitHub (GitHubValidationError m _), GitHub f => includes m (messageOf f)
  | _, _ => False
  end.


End Notions.
Export Notions.

(** ** Sample collaborators, to exercise the statements on concrete calls *)

Module Samples.

Definition runShape : ZodType := z_object [
  ("id", z_number);
  ("name", z_optional (z_nullable z_string));
  ("status", z_nullable z_string)
].

Definition workflowShape : ZodType := z_object [
  ("id", z_number);
  ("name", z_string);
  ("path", z_string);
  ("state", z_enum ["active"; "deleted"; "disabled_manually"])
].

Definition sampleTypes : Types := {|
  WorkflowRunsSchema :=
    z_object [("total_count", z_number); ("workflow_runs", z_array runShape)];
  WorkflowRunSchema := runShape;
  JobsSchema :=
    z_object [("total_count", z_number);
              ("jobs", z_array (z_object [("id", z_number); ("name", z_string)]))];
  WorkflowsSchema :=
    z_object [("total_count", z_number); ("workflows", z_array workflowShape)];
  WorkflowSchema := workflowShape;
  WorkflowUsageSchema :=
    z_object [("billable", z_record (z_object [("total_ms", z_optional z_number)]))]
|}.

(** An upstream that gives every request the same outcome. *)
Definition upstream (answer : Outcome) : Adapter := {|
  fetch := fun _ => answer;
  timeoutMs := 30000;
  wording := fun _ => "GitHub API request failed";
  validationShaped := fun v =>
    match v with
    | VObj props => has "errors" props
    | _ => false
    end
|}.

Definition noContent : Response :=
  {| statusCode := 204; headers := ∅; payload := None |}.

Definition okWith (v : Value) : Response :=
  {| statusCode := 200; headers := ∅; payload := Some v |}.

Definition rateLimited : Response :=
  {| statusCode := 403;
     headers := {[ RATE_LIMIT_REMAINING := "0"; RATE_LIMIT_RESET := "1700000000" ]};
     payload := Some (VObj [("message", VStr "API rate limit exceeded")]) |}.

Definition forbidden : Response :=
  {| statusCode := 403;
     headers := {[ RATE_LIMIT_REMAINING := "4999"; RATE_LIMIT_RESET := "1700000000" ]};
     payload := Some (VObj [("message", VStr "Resource not accessible")]) |}.

Definition onlyWorkflowId (id : StringOrNumber) : ListWorkflowRunsOptions := {|
  workflowId := Some id; actor := None; branch := None; event := None;
  status := None; created := None; excludePullRequests := None;
  checkSuiteId := None; page := None; perPage := None
|}.

Definition onlyExcludePullRequests (flag : bool) : ListWorkflowRunsOptions := {|
  workflowId := None; actor := None; branch := None; event := None;
  status := None; created := None; excludePullRequests := Some flag;
  checkSuiteId := None; page := None; perPage := None
|}.

Definition workflowBody : Value :=
  VObj [("id", VNum 161335); ("node_id", VStr "MDg6V29ya2Zsb3cx");
        ("name", VStr "CI"); ("path", VStr ".github/workflows/ci.yml");
        ("state", VStr "active")].

Definition workflowBodyWithoutName : Value :=
  VObj [("id", VNum 161335); ("path", VStr ".github/workflows/ci.yml");
        ("state", VStr "active")].

End Samples.
Export Samples.

(** ** [src/index.ts]: error formatting and tool handlers *)

Module Boundary.

(** The built-ins of the JavaScript runtime that [index.ts] calls:
    [JSON.stringify] on an error body and on the issues of a [ZodError], and
    [Date.prototype.toISOString] on a valid date. *)
Class Runtime := {
  JSON_stringify : Value -> string;
  JSON_stringify_issues : list ZodIssue -> string;
  Date_toISOString : Z -> string
}.

(** What a tool handler hands to [createToolResponse]: a parsed payload or
    an acknowledgment. *)
Inductive Result :=
| Payload (v : Value)
| Acknowledged (r : SuccessResponse).

(** The two response builders imported from [common/utils.js]; what they
    build is not fixed by [index.ts]. *)
Class Responses := {
  ToolResponse : Type;
  createToolResponse : Result -> ToolResponse;
  createErrorResponse : Exception -> ToolResponse
}.

Definition newline : string := String "010"%char "".

(** [ToBoolean] on a dynamically typed value. *)
Definition ToBoolean (v : Value) : bool :=
  match v with
  | VUndefined | VNull => false
  | VBool b => b
  | VNum n => negb (n =? 0)
  | VStr s => negb (String.eqb s "")
  | VArr _ | VObj _ => true
  end.

(** The kind of a classified error, as [instanceof] tells it. *)
Inductive Kind :=
| Validation | NotFound | Authentication | Permission | RateLimit
| Conflict | Timeout | Network | Generic.

Definition kindOf (e : GitHubError) : Kind :=
  match e with
  | GitHubValidationError _ _ => Validation
  | GitHubResourceNotFoundError _ => NotFound
  | GitHubAuthenticationError _ => Authentication
  | GitHubPermissionError _ => Permission
  | GitHubRateLimitError _ _ => RateLimit
  | GitHubConflictError _ => Conflict
  | GitHubTimeoutError _ _ => Timeout
  | GitHubNetworkError _ _ => Network
  | GitHubApiError _ _ _ => Generic
  end.

Section Formatting.

Context `{Runtime}.

(** [toISOString] on the reset date of a rate-limit error: a [RangeError]
    on an invalid date. *)
Definition resetAt_toISOString (resetAt : option Z) : Completion string :=
  match resetAt with
  | Some t => Return (Date_toISOString t)
  | None => Throw (PlainError "Invalid time value")
  end.

Definition formatGitHubError (error : GitHubError) : Completion string :=
  match error with
  | GitHubValidationError message response =>
      let formatted := "Validation Error: " +:+ message in
      if ToBoolean response
      then Return (formatted +:+ newline +:+ "Details: " +:+ JSON_stringify response)
      else Return formatted
  | GitHubResourceNotFoundError message => Return ("Not Found: " +:+ message)
  | GitHubAuthenticationError message => Return ("Authentication Failed: " +:+ message)
  | GitHubPermissionError message => Return ("Permission Denied: " +:+ message)
  | GitHubRateLimitError message resetAt =>
      match resetAt_toISOString resetAt with
      | Return iso =>
          Return ("Rate Limit Exceeded: " +:+ message +:+ newline
                    +:+ "Resets at: " +:+ iso)
      | Throw e => Throw e
      end
  | GitHubConflictError message => Return ("Conflict: " +:+ message)
  | GitHubTimeoutError message timeoutMs =>
      Return ("Timeout: " +:+ message +:+ newline
                +:+ "Timeout setting: " +:+ Number_toString timeoutMs +:+ "ms")
  | GitHubNetworkError message errorCode =>
      Return ("Network Error: " +:+ message +:+ newline
                +:+ "Error code: " +:+ errorCode)
  | GitHubApiError message _ _ => Return ("GitHub API Error: " +:+ message)
  end.

(** [errorHandler(error)]: the [Error] it returns; it throws when the
    formatting throws. *)
Definition errorHandler (error : Exception) : Completion Exception :=
  match error with
  | ZodError issues =>
      Return (PlainError ("Invalid input: " +:+ JSON_stringify_issues issues))
  | GitHub e =>
      match formatGitHubError e with
      | Return formatted => Return (PlainError formatted)
      | Throw thrown => Throw thrown
      end
  | PlainError _ => Return error
  end.

End Formatting.

(** A call of a registered tool with its typed parameters. *)
Inductive ToolCall :=
| list_workflows (owner repo : string) (page perPage : option Z)
| get_workflow (owner repo : string) (workflowId : StringOrNumber)
| get_workflow_usage (owner repo : string) (workflowId : StringOrNumber)
| list_workflow_runs (owner repo : string) (options : ListWorkflowRunsOptions)
| get_workflow_run (owner repo : string) (runId : Z)
| get_workflow_run_jobs (owner repo : string) (runId : Z) (filter : option string)
    (page perPage : option Z)
| trigger_workflow (owner repo : string) (workflowId : StringOrNumber) (ref : string)
    (inputs : option (gmap string string))
| cancel_workflow_run (owner repo : string) (runId : Z)
| rerun_workflow (owner repo : string) (runId : Z).

(** The name a tool call is registered under. *)
Definition toolName (c : ToolCall) : string :=
  match c with
  | list_workflows _ _ _ _ => "list_workflows"
  | get_workflow _ _ _ => "get_workflow"
  | get_workflow_usage _ _ _ => "get_workflow_usage"
  | list_workflow_runs _ _ _ => "list_workflow_runs"
  | get_workflow_run _ _ _ => "get_workflow_run"
  | get_workflow_run_jobs _ _ _ _ _ _ => "get_workflow_run_jobs"
  | trigger_workflow _ _ _ _ _ => "trigger_workflow"
  | cancel_workflow_run _ _ _ => "cancel_workflow_run"
  | rerun_workflow _ _ _ => "rerun_workflow"
  end.

Definition ownerOf (c : ToolCall) : string :=
  match c with
  | list_workflows owner _ _ _ | get_workflow owner _ _
  | get_workflow_usage owner _ _ | list_workflow_runs owner _ _
  | get_workflow_run owner _ _ | get_workflow_run_jobs owner _ _ _ _ _
  | trigger_workflow owner _ _ _ _ | cancel_workflow_run owner _ _
  | rerun_workflow owner _ _ => owner
  end.

Definition repoOf (c : ToolCall) : string :=
  match c with
  | list_workflows _ repo _ _ | get_workflow _ repo _
  | get_workflow_usage _ repo _ | list_workflow_runs _ repo _
  | get_workflow_run _ repo _ | get_workflow_run_jobs _ repo _ _ _ _
  | trigger_workflow _ repo _ _ _ | cancel_workflow_run _ repo _
  | rerun_workflow _ repo _ => repo
  end.

Section Handlers.

Context `{Validators} `{Adapter} `{Types} `{Runtime} `{Responses}.

(** The [try] block of a handler: the operation it awaits, with its result
    as [createToolResponse] receives it. *)
Definition invoke (c : ToolCall) : Async Result :=
  match c with
  | list_workflows owner repo page perPage =>
      let* result := listWorkflows owner repo page perPage in ret (Payload result)
  | get_workflow owner repo workflowId =>
      let* result := getWorkflow owner repo workflowId in ret (Payload result)
  | get_workflow_usage owner repo workflowId =>
      let* result := getWorkflowUsage owner repo workflowId in ret (Payload result)
  | list_workflow_runs owner repo options =>
      let* result := listWorkflowRuns owner repo options in ret (Payload result)
  | get_workflow_run owner repo runId =>
      let* result := getWorkflowRun owner repo runId in ret (Payload result)
  | get_workflow_run_jobs owner repo runId filter page perPage =>
      let* result := getWorkflowRunJobs owner repo runId filter page perPage in
      ret (Payload result)
  | trigger_workflow owner repo workflowId ref inputs =>
      let* result := triggerWorkflow owner repo workflowId ref inputs in
      ret (Acknowledged result)
  | cancel_workflow_run owner repo runId =>
      let* result := cancelWorkflowRun owner repo runId in ret (Acknowledged result)
  | rerun_workflow owner repo runId =>
      let* result := rerunWorkflowRun owner repo runId in ret (Acknowledged result)
  end.

(** A handler: [try { return createToolResponse(await operation) }
    catch (error) { return createErrorResponse(errorHandler(error)) }]. *)
Definition handle (c : ToolCall) : Async ToolResponse :=
  fun log =>
    match invoke c log with
    | (Return result, log') => (Return (createToolResponse result), log')
    | (Throw error, log') =>
        (match errorHandler error with
         | Return formatted => Return (createErrorResponse formatted)
         | Throw thrown => Throw thrown
         end,
         log')
    end.

End Handlers.

End Boundary.
Export Boundary.

(** ** Notions used to state further properties *)

Module MoreNotions.

(** A computation that only appends to the log, and at most one request. *)
Definition atMostOneRequest {A : Type} (m : Async A) : Prop :=
  forall log, exists issued, snd (m log) = log ++ issued /\ (length issued <= 1)%nat.

Section WithCollaborators.

Context `{Validators} `{Adapter}.

(** The common shape of the operations: validate both names, issue one
    request built from the validated names, continue synchronously. *)
Definition guardedRequest {A : Type} (owner repo : string)
    (u : string -> string -> string) (o : string -> string -> RequestOptions)
    (k : string -> string -> Value -> Completion A) : Async A :=
  let* owner := call (validateOwnerName owner) in
  let* repo := call (validateRepositoryName repo) in
  let* response := githubRequest (u owner repo) (o owner repo) in
  call (k owner repo response).

(** A call that appends nothing to the log when a name fails validation
    and exactly one request when both names pass. *)
Definition singleRoundTrip {A : Type} (owner repo : string) (m : Async A) : Prop :=
  forall log, exists issued,
    snd (m log) = log ++ issued
    /\ length issued = match firstFailure owner repo with
                       | Some _ => 0%nat
                       | None => 1%nat
                       end.

(** An operation that throws whatever the adapter throws for its request. *)
Definition propagatesAdapterErrors {A : Type} (m : Async A) : Prop :=
  forall req e,
    requests m = [req] -> settle (fetch req) = Throw e -> completion m = Throw e.

End WithCollaborators.


(** The URL of a workflow and of a run, with validated names. *)
Definition workflowUrl (owner repo : string) (workflowId : StringOrNumber) : string :=
  "https://api.github.com/repos/" +:+ owner +:+ "/" +:+ repo
    +:+ "/actions/workflows/" +:+ toString workflowId.

Definition runUrl (owner repo : string) (runId : Z) : string :=
  "https://api.github.com/repos/" +:+ owner +:+ "/" +:+ repo
    +:+ "/actions/runs/" +:+ Number_toString runId.

Definition post (b : option DispatchBody) : RequestOptions :=
  {| method := Some "POST"; body := b |}.

(** A schema whose parsed value is the input itself: no object, record or
    array inside. *)
Fixpoint flat (t : ZodType) : bool :=
  match t with
  | z_string | z_number | z_boolean | z_enum _ => true
  | z_union options => forallb flat options
  | z_optional inner | z_nullable inner | z_describe inner _ => flat inner
  | z_record _ | z_array _ | z_object _ => false
  end.

(** The type a declared parameter has once the schema has accepted it. *)
Definition isString (v : Value) : bool :=
  match v with VStr _ => true | _ => false end.

Definition isNumber (v : Value) : bool :=
  match v with VNum _ => true | _ => false end.

End MoreNotions.
Export MoreNotions.

(** ** Sample runtime and response builders *)

Module BoundarySamples.

(** A rendering that stands for [JSON.stringify] in concrete calls: scalars
    only, anything else as an ellipsis. *)
Definition sampleRuntime : Runtime := {|
  JSON_stringify := fun v =>
    match v with
    | VNull | VUndefined => "null"
    | VBool true => "true"
    | VBool false => "false"
    | VNum n => Number_toString n
    | VStr s => String "034"%char s +:+ String "034"%char ""
    | VArr _ => "[...]"
    | VObj _ => "{...}"
    end;
  JSON_stringify_issues := fun issues =>
    "[" +:+ Number_toString (Z.of_nat (length issues)) +:+ " issues]";
  Date_toISOString := fun t => "epoch+" +:+ Number_toString t
|}.

Inductive SampleResponse :=
| Content (r : Result)
| IsError (e : Exception).

Definition sampleResponses : Responses := {|
  ToolResponse := SampleResponse;
  createToolResponse := Content;
  createErrorResponse := IsError
|}.

Definition rateLimitedWithoutReset : Response :=
  {| statusCode := 403;
     headers := {[ RATE_LIMIT_REMAINING := "0" ]};
     payload := None |}.

End BoundarySamples.
Export BoundarySamples.

(** Unfolds whichever operation the goal is about. *)
Ltac unfold_operation :=
  cbv delta [listWorkflows getWorkflow getWorkflowUsage listWorkflowRuns
             getWorkflowRun getWorkflowRunJobs triggerWorkflow
             cancelWorkflowRun rerunWorkflowRun];
  cbv beta.

(** * Properties *)

(** ** The asynchronous computations *)

Section AsyncLaws.

Context {A B : Type}.

Lemma bind_call_throw (c : Completion A) (e : Exception) (k : A -> Async B) log :
  c = Throw e -> bind (call c) k log = (Throw e, log).
Proof. intros ->. reflexivity. Qed.

Lemma bind_call_return (c : Completion A) (a : A) (k : A -> Async B) log :
  c = Return a -> bind (call c) k log = k a log.
Proof. intros ->. reflexivity. Qed.

Lemma bind_call_aborts (c : Completion A) (e : Exception) (k : A -> Async B) :
  c = Throw e -> abortsBeforeRequest (bind (call c) k).
Proof. intros E log. exists e. by apply bind_call_throw. Qed.

End AsyncLaws.

(** ** Validation comes first *)

Section ValidationFirst.

Context `{Validators} `{Adapter} `{Types}.

(** Both validators guard whatever follows them. *)
Lemma guarded_aborts {A : Type} (owner repo : string)
    (k : string -> string -> Async A) :
  failsValidation owner repo ->
  abortsBeforeRequest
    (let* owner := call (validateOwnerName owner) in
     let* repo := call (validateRepositoryName repo) in
     k owner repo).
Proof.
  intros [[e E] | [e E]] log.
  - exists e. by apply bind_call_throw.
  - destruct (validateOwnerName owner) as [owner' | e'] eqn:Eo.
    + exists e. erewrite bind_call_return by reflexivity.
      by apply bind_call_throw.
    + exists e'. by apply bind_call_throw.
Qed.

(** C5: when the owner or the repository name fails syntactic validation,
    each of the nine operations throws and the log of adapter invocations is
    left as it was: no request is issued. *)
Theorem validation_failure_issues_no_request (owner repo : string) :
  failsValidation owner repo ->
  (forall page perPage, abortsBeforeRequest (listWorkflows owner repo page perPage))
  /\ (forall workflowId, abortsBeforeRequest (getWorkflow owner repo workflowId))
  /\ (forall workflowId, abortsBeforeRequest (getWorkflowUsage owner repo workflowId))
  /\ (forall options, abortsBeforeRequest (listWorkflowRuns owner repo options))
  /\ (forall runId, abortsBeforeRequest (getWorkflowRun owner repo runId))
  /\ (forall runId filter page perPage,
        abortsBeforeRequest (getWorkflowRunJobs owner repo runId filter page perPage))
  /\ (forall workflowId ref inputs,
        abortsBeforeRequest (triggerWorkflow owner repo workflowId ref inputs))
  /\ (forall runId, abortsBeforeRequest (cancelWorkflowRun owner repo runId))
  /\ (forall runId, abortsBeforeRequest (rerunWorkflowRun owner repo runId)).
Proof.
  intros Hfail.
  repeat split; intros; unfold_operation; by apply guarded_aborts.
Qed.

End ValidationFirst.

Lemma validation_failure_issues_no_request_witness :
  @failsValidation namingRules "-octocat" "hello world"
  /\ abortsBeforeRequest
       (@listWorkflowRuns namingRules (upstream (Responded noContent)) sampleTypes
          "-octocat" "hello world" empty_options).
Proof.
  assert (Hfail : @failsValidation namingRules "-octocat" "hello world").
  { left. eexists. vm_compute. reflexivity. }
  split; [exact Hfail |].
  apply (@validation_failure_issues_no_request
           namingRules (upstream (Responded noContent)) sampleTypes
           "-octocat" "hello world" Hfail).
Defined.

(** ** What reaches the adapter *)

Section Requests.

Context `{Validators} `{Adapter} `{Types}.

Lemma guarded_passes {A : Type} (owner repo owner' repo' : string)
    (k : string -> string -> Async A) log :
  passesValidation owner repo owner' repo' ->
  (let* owner := call (validateOwnerName owner) in
   let* repo := call (validateRepositoryName repo) in
   k owner repo) log = k owner' repo' log.
Proof.
  intros [Eo Er].
  erewrite bind_call_return by exact Eo.
  by erewrite bind_call_return by exact Er.
Qed.

(** One request, then a synchronous continuation. *)
Lemma request_then {B : Type} (u : string) (o : RequestOptions)
    (k : Value -> Completion B) log :
  bind (githubRequest u o) (fun response => call (k response)) log
  = (match settle (fetch {| url := u; options := o |}) with
     | Return v => k v
     | Throw e => Throw e
     end,
     log ++ [{| url := u; options := o |}]).
Proof.
  unfold bind, githubRequest, call.
  by destruct (settle _).
Qed.

(** One request, then a fixed acknowledgment. *)
Lemma request_then_ret {B : Type} (u : string) (o : RequestOptions) (b : B) log :
  bind (githubRequest u o) (fun _ => ret b) log
  = (match settle (fetch {| url := u; options := o |}) with
     | Return _ => Return b
     | Throw e => Throw e
     end,
     log ++ [{| url := u; options := o |}]).
Proof.
  unfold bind, githubRequest, ret.
  by destruct (settle _).
Qed.

Lemma listWorkflowRuns_request (owner repo owner' repo' : string)
    (options : ListWorkflowRunsOptions) :
  passesValidation owner repo owner' repo' ->
  requests (listWorkflowRuns owner repo options)
  = [{| url := buildUrl (runsPath owner' repo' options) (runsQuery options);
        options := no_options |}].
Proof.
  intros Hpass. unfold requests, run, listWorkflowRuns.
  rewrite (guarded_passes _ _ _ _ _ _ Hpass). cbv zeta.
  by rewrite request_then.
Qed.

End Requests.

(** ** The path of a list-runs request *)

Lemma truthy_false (v : option StringOrNumber) :
  truthy v = false <-> v = None \/ v = Some (Num 0) \/ v = Some (Str "").
Proof.
  split.
  - destruct v as [[s | n] |]; simpl; intros E; auto.
    + right; right. apply negb_false_iff, String.eqb_eq in E. by subst.
    + right; left. apply negb_false_iff, Z.eqb_eq in E. by subst.
  - by intros [-> | [-> | ->]].
Qed.

Section RunsPath.

Context `{Validators} `{Adapter} `{Types}.

(** C1, as the code has it: the request of [listWorkflowRuns] targets the
    per-workflow runs path exactly when the workflow identifier is truthy,
    that is, a non-zero number or a non-empty string; when the identifier is
    absent, [0] or the empty string it targets the repository-wide runs
    path. *)
Theorem listWorkflowRuns_path_by_truthiness (owner repo owner' repo' : string)
    (options : ListWorkflowRunsOptions) :
  passesValidation owner repo owner' repo' ->
  exists u,
    requests (listWorkflowRuns owner repo options)
    = [{| url := u; options := no_options |}]
    /\ (forall id, workflowId options = Some id -> id <> Num 0 -> id <> Str "" ->
          targets u (perWorkflowRunsPath owner' repo' (toString id)))
    /\ (workflowId options = None \/ workflowId options = Some (Num 0)
        \/ workflowId options = Some (Str "") ->
          targets u (repositoryRunsPath owner' repo')).
Proof.
  intros Hpass.
  exists (buildUrl (runsPath owner' repo' options) (runsQuery options)).
  split; [by apply listWorkflowRuns_request |].
  unfold buildUrl, runsPath, targets. split.
  - intros id Eid Hzero Hempty.
    destruct (truthy (workflowId options)) eqn:Et.
    + exists (queryEntries (runsQuery options)). by rewrite Eid.
    + apply truthy_false in Et. rewrite Eid in Et.
      destruct Et as [? | [? | ?]]; congruence.
  - intros Hfalsy. apply truthy_false in Hfalsy. rewrite Hfalsy.
    by exists (queryEntries (runsQuery options)).
Qed.

End RunsPath.

Lemma listWorkflowRuns_path_by_truthiness_witness :
  @passesValidation namingRules "octocat" "hello-world" "octocat" "hello-world"
  /\ exists u,
       requests (@listWorkflowRuns namingRules (upstream (Responded noContent))
                   sampleTypes "octocat" "hello-world" (onlyWorkflowId (Str "ci.yml")))
       = [{| url := u; options := no_options |}]
       /\ targets u (perWorkflowRunsPath "octocat" "hello-world" "ci.yml").
Proof.
  assert (Hpass : @passesValidation namingRules
                    "octocat" "hello-world" "octocat" "hello-world").
  { split; vm_compute; reflexivity. }
  split; [exact Hpass |].
  destruct (@listWorkflowRuns_path_by_truthiness
              namingRules (upstream (Responded noContent)) sampleTypes
              "octocat" "hello-world" "octocat" "hello-world"
              (onlyWorkflowId (Str "ci.yml")) Hpass) as (u & Hreq & Htruthy & _).
  exists u. split; [exact Hreq |].
  apply (Htruthy (Str "ci.yml")); [reflexivity | discriminate | discriminate].
Defined.

(** C1, as stated, fails for the defined but falsy identifier [0]: the
    request goes to the repository-wide runs path. *)
Lemma listWorkflowRuns_zero_id_counterexample :
  exists u,
    requests (@listWorkflowRuns namingRules (upstream (Responded noContent))
                sampleTypes "octocat" "hello-world" (onlyWorkflowId (Num 0)))
    = [{| url := u; options := no_options |}]
    /\ u = "https://api.github.com/repos/octocat/hello-world/actions/runs"
    /\ ~ targets u (perWorkflowRunsPath "octocat" "hello-world" (toString (Num 0))).
Proof.
  eexists. split; [vm_compute; reflexivity |].
  split; [reflexivity |].
  intros [entries E]. cbn in E. discriminate E.
Qed.

(** ** The query of a list-runs request *)

Lemma searchParam_skip (key k : string) (v : option string) (f : string -> QueryValue)
    (rest : list (string * option QueryValue)) :
  String.eqb key k = false ->
  searchParam key (queryEntries ((k, f <$> v) :: rest))
  = searchParam key (queryEntries rest).
Proof.
  intros Hne. destruct v as [x |]; simpl; [by rewrite Hne | done].
Qed.

Lemma searchParam_exclude_pull_requests (options : ListWorkflowRunsOptions) :
  searchParam "exclude_pull_requests" (queryEntries (runsQuery options))
  = if truthy_bool (excludePullRequests options) then Some "true" else None.
Proof.
  unfold runsQuery.
  do 5 (rewrite searchParam_skip by reflexivity).
  destruct (truthy_bool (excludePullRequests options)); [reflexivity |].
  change (searchParam "exclude_pull_requests"
            (queryEntries [("check_suite_id", QNum <$> checkSuiteId options);
                           ("page", QNum <$> page options);
                           ("per_page", QNum <$> perPage options)]) = None).
  destruct (checkSuiteId options), (page options), (perPage options); reflexivity.
Qed.

Section RunsQuery.

Context `{Validators} `{Adapter} `{Types}.

(** C2, as the code has it: the query of a [listWorkflowRuns] request
    carries [exclude_pull_requests=true] when [excludePullRequests] is
    [true]; the key is left out when [excludePullRequests] is [false] and
    when it is absent. *)
Theorem exclude_pull_requests_sent_only_when_true (owner repo owner' repo' : string)
    (options : ListWorkflowRunsOptions) :
  passesValidation owner repo owner' repo' ->
  exists entries,
    requests (listWorkflowRuns owner repo options)
    = [{| url := runsPath owner' repo' options +:+ queryString entries;
          options := no_options |}]
    /\ (excludePullRequests options = Some true ->
          searchParam "exclude_pull_requests" entries = Some "true")
    /\ (excludePullRequests options = Some false ->
          searchParam "exclude_pull_requests" entries = None)
    /\ (excludePullRequests options = None ->
          searchParam "exclude_pull_requests" entries = None).
Proof.
  intros Hpass. exists (queryEntries (runsQuery options)).
  split; [by apply listWorkflowRuns_request |].
  rewrite searchParam_exclude_pull_requests.
  by repeat split; intros ->.
Qed.

End RunsQuery.

Lemma exclude_pull_requests_sent_only_when_true_witness :
  @passesValidation namingRules "octocat" "hello-world" "octocat" "hello-world"
  /\ exists entries,
       requests (@listWorkflowRuns namingRules (upstream (Responded noContent))
                   sampleTypes "octocat" "hello-world" (onlyExcludePullRequests true))
       = [{| url := "https://api.github.com/repos/octocat/hello-world/actions/runs"
                      +:+ queryString entries;
             options := no_options |}]
       /\ searchParam "exclude_pull_requests" entries = Some "true".
Proof.
  assert (Hpass : @passesValidation namingRules
                    "octocat" "hello-world" "octocat" "hello-world").
  { split; vm_compute; reflexivity. }
  split; [exact Hpass |].
  destruct (@exclude_pull_requests_sent_only_when_true
              namingRules (upstream (Responded noContent)) sampleTypes
              "octocat" "hello-world" "octocat" "hello-world"
              (onlyExcludePullRequests true) Hpass) as (entries & Hreq & Htrue & _).
  exists entries. split; [exact Hreq |].
  apply Htrue. reflexivity.
Defined.

(** C2, as stated, fails for [excludePullRequests = false]: the flag is
    defined, yet the request carries no query at all. *)
Lemma exclude_pull_requests_false_counterexample :
  requests (@listWorkflowRuns namingRules (upstream (Responded noContent))
              sampleTypes "octocat" "hello-world" (onlyExcludePullRequests false))
  = [{| url := "https://api.github.com/repos/octocat/hello-world/actions/runs";
        options := no_options |}]
  /\ searchParam "exclude_pull_requests"
       (queryEntries (runsQuery (onlyExcludePullRequests false)))
     <> Some "false".
Proof.
  split; [vm_compute; reflexivity |].
  vm_compute. discriminate.
Qed.

(** ** The body of a dispatch *)

Section Dispatch.

Context `{Validators} `{Adapter} `{Types}.

(** C6: the dispatch request of [triggerWorkflow] is a POST whose body has
    the single key [ref] when [inputs] is absent or empty, and the keys
    [ref] and [inputs], the latter holding the given mapping itself, when
    [inputs] is not empty. *)
Theorem triggerWorkflow_body (owner repo owner' repo' : string)
    (workflowId : StringOrNumber) (ref : string)
    (inputs : option (gmap string string)) :
  passesValidation owner repo owner' repo' ->
  exists b,
    requests (triggerWorkflow owner repo workflowId ref inputs)
    = [{| url := "https://api.github.com/repos/" +:+ owner' +:+ "/" +:+ repo'
                   +:+ "/actions/workflows/" +:+ toString workflowId +:+ "/dispatches";
          options := {| method := Some "POST"; body := Some b |} |}]
    /\ Http.ref b = ref
    /\ (inputs = None \/ inputs = Some ∅ ->
          Object_keys b = ["ref"] /\ Http.inputs b = None)
    /\ (forall given, inputs = Some given -> given <> ∅ ->
          Object_keys b = ["ref"; "inputs"] /\ Http.inputs b = Some given).
Proof.
  intros Hpass. eexists. split.
  { unfold requests, run, triggerWorkflow.
    rewrite (guarded_passes _ _ _ _ _ _ Hpass). cbv zeta.
    rewrite request_then_ret. reflexivity. }
  split; [by destruct inputs as [given |]; [destruct (Nat.ltb 0 (size given)) |] |].
  split.
  - intros [-> | ->]; [done |]. by rewrite map_size_empty.
  - intros given -> Hne.
    assert (Hsize : Nat.ltb 0 (size given) = true).
    { apply Nat.ltb_lt. apply map_size_non_empty_iff in Hne. lia. }
    by rewrite Hsize.
Qed.

End Dispatch.

Lemma triggerWorkflow_body_witness :
  @passesValidation namingRules "octocat" "hello-world" "octocat" "hello-world"
  /\ exists b,
       requests (@triggerWorkflow namingRules (upstream (Responded noContent))
                   "octocat" "hello-world" (Str "ci.yml") "main"
                   (Some {[ "environment" := "staging" ]}))
       = [{| url := "https://api.github.com/repos/octocat/hello-world/actions/workflows/ci.yml/dispatches";
             options := {| method := Some "POST"; body := Some b |} |}]
       /\ Object_keys b = ["ref"; "inputs"]
       /\ Http.inputs b = Some {[ "environment" := "staging" ]}.
Proof.
  assert (Hpass : @passesValidation namingRules
                    "octocat" "hello-world" "octocat" "hello-world").
  { split; vm_compute; reflexivity. }
  split; [exact Hpass |].
  destruct (@triggerWorkflow_body
              namingRules (upstream (Responded noContent))
              "octocat" "hello-world" "octocat" "hello-world"
              (Str "ci.yml") "main" (Some {[ "environment" := "staging" ]}) Hpass)
    as (b & Hreq & _ & _ & Hgiven).
  exists b. split; [exact Hreq |].
  apply (Hgiven {[ "environment" := "staging" ]}); [reflexivity |].
  apply map_non_empty_singleton.
Defined.

(** ** Acknowledgments of the write operations *)


Section Acknowledgment.

Context `{Validators} `{Adapter} `{Types}.





End Acknowledgment.


(** ** Classification of a 403 response *)

Section Forbidden.

Context `{Adapter}.

Lemma createGitHubError_403 (r : Response) :
  statusCode r = 403 ->
  createGitHubError r
  = if quotaExhausted r
    then GitHubRateLimitError (wording (Responded r)) (resetTime r)
    else GitHubPermissionError (wording (Responded r)).
Proof. intros E. unfold createGitHubError. by rewrite E. Qed.

Lemma githubRequest_403 (u : string) (o : RequestOptions) (r : Response) log :
  fetch {| url := u; options := o |} = Responded r ->
  statusCode r = 403 ->
  githubRequest u o log
  = (Throw (GitHub (if quotaExhausted r
                    then GitHubRateLimitError (wording (Responded r)) (resetTime r)
                    else GitHubPermissionError (wording (Responded r)))),
     log ++ [{| url := u; options := o |}]).
Proof.
  intros Hfetch E. unfold githubRequest. rewrite Hfetch. simpl.
  rewrite <- (createGitHubError_403 r E). by rewrite E.
Qed.

(** C3: a 403 response that announces a remaining quota of zero makes the
    adapter throw a rate-limit error whose reset time is the value parsed
    from the reset header; a 403 response that does not announce an
    exhausted quota makes it throw a permission error; which of the two is
    thrown is decided by the remaining quota alone. *)
Theorem forbidden_is_rate_limit_or_permission (u : string) (o : RequestOptions)
    (r : Response) log :
  fetch {| url := u; options := o |} = Responded r ->
  statusCode r = 403 ->
  (quotaExhausted r = true ->
     forall h t, headers r !! RATE_LIMIT_RESET = Some h -> Number_parse h = Some t ->
       githubRequest u o log
       = (Throw (GitHub (GitHubRateLimitError (wording (Responded r)) (Some t))),
          log ++ [{| url := u; options := o |}]))
  /\ (quotaExhausted r = false ->
        githubRequest u o log
        = (Throw (GitHub (GitHubPermissionError (wording (Responded r)))),
           log ++ [{| url := u; options := o |}]))
  /\ ((exists m t, fst (githubRequest u o log) = Throw (GitHub (GitHubRateLimitError m t)))
      <-> quotaExhausted r = true)
  /\ ((exists m, fst (githubRequest u o log) = Throw (GitHub (GitHubPermissionError m)))
      <-> quotaExhausted r = false).
Proof.
  intros Hfetch E. rewrite (githubRequest_403 u o r log Hfetch E).
  repeat split.
  - intros Hq h t Hh Ht. rewrite Hq. unfold resetTime. by rewrite Hh, Ht.
  - by intros ->.
  - intros (m & t & Em). simpl in Em. by destruct (quotaExhausted r).
  - intros ->. simpl. eauto.
  - intros (m & Em). simpl in Em. by destruct (quotaExhausted r).
  - intros ->. simpl. eauto.
Qed.

Lemma quotaExhausted_header (r : Response) :
  quotaExhausted r = true
  <-> exists h, headers r !! RATE_LIMIT_REMAINING = Some h /\ Number_parse h = Some 0.
Proof.
  unfold quotaExhausted. split.
  - destruct (headers r !! RATE_LIMIT_REMAINING) as [h |]; [| done].
    destruct (Number_parse h) as [n |] eqn:En; [| done].
    intros E. apply Z.eqb_eq in E. subst. by exists h.
  - intros (h & -> & ->). reflexivity.
Qed.

End Forbidden.

Lemma forbidden_is_rate_limit_or_permission_witness :
  (@fetch (upstream (Responded rateLimited))
     {| url := "https://api.github.com/repos/octocat/hello-world/actions/workflows";
        options := no_options |}
   = Responded rateLimited
   /\ statusCode rateLimited = 403)
  /\ @githubRequest (upstream (Responded rateLimited))
       "https://api.github.com/repos/octocat/hello-world/actions/workflows" no_options []
     = (Throw (GitHub (GitHubRateLimitError "GitHub API request failed" (Some 1700000000))),
        [{| url := "https://api.github.com/repos/octocat/hello-world/actions/workflows";
            options := no_options |}]).
Proof.
  split; [by split |].
  destruct (@forbidden_is_rate_limit_or_permission
              (upstream (Responded rateLimited))
              "https://api.github.com/repos/octocat/hello-world/actions/workflows"
              no_options rateLimited [] eq_refl eq_refl) as (Hlimit & _).
  apply (Hlimit eq_refl "1700000000" 1700000000); reflexivity.
Defined.

(** ** Schemas that are one and the same *)

(** C10: [GetWorkflowUsageSchema] is [GetWorkflowSchema] and
    [RerunWorkflowSchema] is [CancelWorkflowRunSchema]; validating an input
    under one gives a result exactly when validating it under the other
    gives that result. *)
Theorem aliased_schemas_validate_alike :
  GetWorkflowUsageSchema = GetWorkflowSchema
  /\ RerunWorkflowSchema = CancelWorkflowRunSchema
  /\ (forall input result,
        safeParse GetWorkflowUsageSchema input = result
        <-> safeParse GetWorkflowSchema input = result)
  /\ (forall input result,
        safeParse RerunWorkflowSchema input = result
        <-> safeParse CancelWorkflowRunSchema input = result).
Proof. by repeat split. Qed.

(** ** The tool surface *)

(** C9, as the code has it: nine tools are registered, under distinct
    names, one for each operation; their names and their required and
    optional parameters are those of the interface table except that the
    tool for re-running a run is named [rerun_workflow]; that tool requires
    [owner], [repo] and [runId] and has no optional parameter. *)
Theorem tool_surface :
  map row tools = renamed "rerun_workflow_run" "rerun_workflow" interfaceTable
  /\ NoDup (map name tools)
  /\ map handler tools
     = [ListWorkflows; GetWorkflow; GetWorkflowUsage; ListWorkflowRuns; GetWorkflowRun;
        GetWorkflowRunJobs; TriggerWorkflow; CancelWorkflowRun; RerunWorkflowRun]
  /\ exists t,
       findTool "rerun_workflow" = Some t
       /\ handler t = RerunWorkflowRun
       /\ requiredParams t = ["owner"; "repo"; "runId"]
       /\ optionalParams t = [].
Proof.
  split; [vm_compute; reflexivity |].
  split; [apply (bool_decide_unpack _); by vm_compute |].
  split; [reflexivity |].
  eexists. split; [vm_compute; reflexivity |]. by vm_compute.
Qed.

(** C9, as stated, fails: no tool is registered under the name
    [rerun_workflow_run]. *)
Lemma rerun_workflow_run_counterexample :
  findTool "rerun_workflow_run" = None
  /\ ~ In "rerun_workflow_run" (map name tools).
Proof.
  split; [vm_compute; reflexivity |].
  simpl. intros Hin.
  repeat (destruct Hin as [Hin | Hin]; [discriminate Hin |]).
  exact Hin.
Qed.

(** ** Which validation error is reported *)

Lemma prefix_app (n post : string) : String.prefix n (n +:+ post) = true.
Proof.
  induction n as [| c n IH]; simpl.
  - destruct post; reflexivity.
  - destruct (ascii_dec c c); [exact IH | congruence].
Qed.

Lemma prefix_split (n h : string) :
  String.prefix n h = true -> exists post, h = n +:+ post.
Proof.
  revert h. induction n as [| c n IH]; intros h E.
  - by exists h.
  - destruct h as [| c' h]; simpl in E; [done |].
    destruct (ascii_dec c c') as [-> |]; [| done].
    destruct (IH h E) as [post ->]. by exists post.
Qed.

Lemma includesb_unfold (haystack needle : string) :
  includesb haystack needle
  = String.prefix needle haystack
    || match haystack with
       | String _ rest => includesb rest needle
       | EmptyString => false
       end.
Proof. by destruct haystack. Qed.

Lemma includesb_spec (haystack needle : string) :
  includesb haystack needle = true <-> includes haystack needle.
Proof.
  split.
  - induction haystack as [| c rest IH]; rewrite includesb_unfold; intros E.
    + apply orb_true_iff in E as [E | E]; [| done].
      apply prefix_split in E as [post E]. by exists "", post.
    + apply orb_true_iff in E as [E | E].
      * apply prefix_split in E as [post E]. by exists "", post.
      * destruct (IH E) as (pre & post & ->). by exists (String c pre), post.
  - intros (pre & post & ->).
    induction pre as [| c pre IH]; rewrite includesb_unfold.
    + change ("" +:+ needle +:+ post) with (needle +:+ post).
      by rewrite prefix_app.
    + change (String c pre +:+ needle +:+ post)
        with (String c (pre +:+ needle +:+ post)).
      cbv iota. rewrite IH. apply orb_true_r.
Qed.

Section FirstFailure.

Context `{Validators} `{Adapter} `{Types}.

Lemma guarded_throws_first {A : Type} (owner repo : string) (e : Exception)
    (k : string -> string -> Async A) :
  firstFailure owner repo = Some e ->
  throwsExactly
    (let* owner := call (validateOwnerName owner) in
     let* repo := call (validateRepositoryName repo) in
     k owner repo) e.
Proof.
  unfold firstFailure. intros E log.
  destruct (validateOwnerName owner) as [owner' | e'] eqn:Eo.
  - destruct (validateRepositoryName repo) as [repo' | e'] eqn:Er; [done |].
    injection E as ->.
    erewrite bind_call_return by reflexivity. by apply bind_call_throw.
  - injection E as ->. by apply bind_call_throw.
Qed.

(** C4, as the code has it: an operation validates the owner name and then
    the repository name and throws the error of the first of the two that
    fails, without invoking the adapter; when the owner name is invalid the
    repository name is not looked at, so at most one field error is
    reported per call. *)
Theorem first_failing_validator_is_reported (owner repo : string) (e : Exception) :
  firstFailure owner repo = Some e ->
  (forall page perPage, throwsExactly (listWorkflows owner repo page perPage) e)
  /\ (forall workflowId, throwsExactly (getWorkflow owner repo workflowId) e)
  /\ (forall workflowId, throwsExactly (getWorkflowUsage owner repo workflowId) e)
  /\ (forall options, throwsExactly (listWorkflowRuns owner repo options) e)
  /\ (forall runId, throwsExactly (getWorkflowRun owner repo runId) e)
  /\ (forall runId filter page perPage,
        throwsExactly (getWorkflowRunJobs owner repo runId filter page perPage) e)
  /\ (forall workflowId ref inputs,
        throwsExactly (triggerWorkflow owner repo workflowId ref inputs) e)
  /\ (forall runId, throwsExactly (cancelWorkflowRun owner repo runId) e)
  /\ (forall runId, throwsExactly (rerunWorkflowRun owner repo runId) e)
  /\ (forall e', validateOwnerName owner = Throw e' ->
        e = e' /\ forall repo', firstFailure owner repo' = Some e).
Proof.
  intros Hfirst.
  repeat split; intros; unfold_operation; try by apply guarded_throws_first.
  - unfold firstFailure in Hfirst.
    match goal with E : validateOwnerName owner = Throw _ |- _ => rewrite E in Hfirst end.
    by injection Hfirst.
  - unfold firstFailure in *.
    match goal with E : validateOwnerName owner = Throw _ |- _ => rewrite E in * end.
    done.
Qed.

End FirstFailure.

Lemma first_failing_validator_is_reported_witness :
  @firstFailure namingRules "-octocat" "hello world"
  = Some (validationError "Owner name cannot start or end with a hyphen")
  /\ throwsExactly
       (@listWorkflows namingRules (upstream (Responded noContent)) sampleTypes
          "-octocat" "hello world" None None)
       (validationError "Owner name cannot start or end with a hyphen").
Proof.
  assert (Hfirst : @firstFailure namingRules "-octocat" "hello world"
                   = Some (validationError "Owner name cannot start or end with a hyphen"))
    by (vm_compute; reflexivity).
  split; [exact Hfirst |].
  destruct (@first_failing_validator_is_reported
              namingRules (upstream (Responded noContent)) sampleTypes
              "-octocat" "hello world" _ Hfirst) as (Hlist & _).
  apply Hlist.
Defined.

(** C4, as stated, fails when both names are invalid: two field errors are
    found, and the error thrown is the owner's alone; it does not mention
    the repository name. *)
Lemma both_names_invalid_counterexample :
  @fieldErrors namingRules "-octocat" "hello world"
  = [validationError "Owner name cannot start or end with a hyphen";
     validationError "Repository name contains characters that are not allowed"]
  /\ ~ exists thrown,
         completion (@listWorkflows namingRules (upstream (Responded noContent))
                       sampleTypes "-octocat" "hello world" None None)
         = Throw thrown
         /\ forall f, In f (@fieldErrors namingRules "-octocat" "hello world") ->
              reports thrown f.
Proof.
  split; [vm_compute; reflexivity |].
  intros (thrown & Ec & Hall).
  vm_compute in Ec. injection Ec as <-.
  specialize (Hall (validationError
                      "Repository name contains characters that are not allowed")).
  assert (Hin : In (validationError
                      "Repository name contains characters that are not allowed")
                   (@fieldErrors namingRules "-octocat" "hello world"))
    by (vm_compute; auto).
  apply Hall in Hin. simpl in Hin.
  apply includesb_spec in Hin. vm_compute in Hin. discriminate Hin.
Qed.

(** ** Parsing a body against a shape *)

Lemma ZodType_ind' (P : ZodType -> Prop)
    (Hstring : P z_string)
    (Hnumber : P z_number)
    (Hboolean : P z_boolean)
    (Henum : forall values, P (z_enum values))
    (Hunion : forall options, Forall P options -> P (z_union options))
    (Hrecord : forall inner, P inner -> P (z_record inner))
    (Harray : forall inner, P inner -> P (z_array inner))
    (Hobject : forall shape, Forall (fun f => P (snd f)) shape -> P (z_object shape))
    (Hoptional : forall inner, P inner -> P (z_optional inner))
    (Hnullable : forall inner, P inner -> P (z_nullable inner))
    (Hdescribe : forall inner text, P inner -> P (z_describe inner text)) :
  forall t, P t.
Proof.
  fix IH 1. intros [ | | | values | options | inner | inner | shape | inner | inner | inner text].
  - exact Hstring.
  - exact Hnumber.
  - exact Hboolean.
  - apply Henum.
  - apply Hunion. induction options as [| o rest IHrest]; constructor; [apply IH | exact IHrest].
  - apply Hrecord, IH.
  - apply Harray, IH.
  - apply Hobject. induction shape as [| [k t] rest IHrest]; constructor; [apply IH | exact IHrest].
  - apply Hoptional, IH.
  - apply Hnullable, IH.
  - apply Hdescribe, IH.
Qed.


Lemma finish_valid {A : Type} (wrap : A -> Value) (r : A * list ZodIssue) out :
  finish wrap r = Valid out -> snd r = [] /\ out = wrap (fst r).
Proof. destruct r as [kept [| i issues]]; simpl; [| done]. by intros [= <-]. Qed.

Lemma finish_invalid {A : Type} (wrap : A -> Value) (r : A * list ZodIssue) found :
  finish wrap r = Invalid found -> found <> [].
Proof. destruct r as [kept [| i issues]]; simpl; [done |]. by intros [= <-]. Qed.


Lemma parse_first_invalid_nonempty p v options found :
  parse_first parse_at p v options = Invalid found -> found <> [].
Proof.
  induction options as [| o rest IH]; simpl.
  - by intros [= <-].
  - by destruct (parse_at o p v).
Qed.

Lemma parse_invalid_nonempty (t : ZodType) : forall p v found,
  parse_at t p v = Invalid found -> found <> [].
Proof.
  induction t using ZodType_ind'; intros p v found; simpl.
  - destruct v; by intros [= <-].
  - destruct v; by intros [= <-].
  - destruct v; by intros [= <-].
  - destruct v; try by intros [= <-].
    destruct (existsb _ _); by intros [= <-].
  - apply parse_first_invalid_nonempty.
  - destruct v; try by intros [= <-]. apply finish_invalid.
  - destruct v; try by intros [= <-]. apply finish_invalid.
  - destruct v; try by intros [= <-]. apply finish_invalid.
  - destruct v; try done; apply IHt.
  - destruct v; try done; apply IHt.
  - apply IHt.
Qed.







Lemma get_missing (k : string) (props : list (string * Value)) :
  has k props = false -> get k props = VUndefined.
Proof.
  induction props as [| [k' x'] rest IH]; simpl; [done |].
  intros E. apply orb_false_iff in E as [-> E]. by apply IH.
Qed.

Lemma is_undefined_true (v : Value) : is_undefined v = true -> v = VUndefined.
Proof. by destruct v. Qed.

Lemma parse_first_valid p v options out :
  parse_first parse_at p v options = Valid out ->
  exists o, In o options /\ parse_at o p v = Valid out.
Proof.
  induction options as [| o rest IH]; simpl; [done |].
  destruct (parse_at o p v) as [w | found] eqn:E.
  - intros [= <-]. exists o. auto.
  - intros Hrest. destruct (IH Hrest) as (o' & Hin & Ho'). exists o'. auto.
Qed.



Lemma existsb_In (k : string) (keys : list string) :
  In k keys -> existsb (String.eqb k) keys = true.
Proof.
  intros Hin. apply existsb_exists. exists k. by rewrite String.eqb_refl.
Qed.

Lemma parse_shape_kept p props shape kept :
  distinct (map fst shape) = true ->
  parse_shape parse_at p props shape = (kept, []) ->
  (forall k, has k kept = true -> In k (map fst shape))
  /\ forall k t, In (k, t) shape ->
       parse_at t (p ++ [Key k]) (get k props) = Valid (get k kept)
       /\ (has k props = true -> has k kept = true).
Proof.
  revert kept. induction shape as [| [k0 t0] rest IH]; intros kept; simpl.
  - intros _ [= <-]. by split.
  - intros Hdistinct. apply andb_true_iff in Hdistinct as [Hfresh Hdistinct].
    apply negb_true_iff in Hfresh.
    destruct (parse_shape parse_at p props rest) as [out issues].
    destruct (parse_at t0 (p ++ [Key k0]) (get k0 props)) as [v0 | found] eqn:E0.
    + intros [= <- ->]. destruct (IH out Hdistinct eq_refl) as [Hkeys Hfields].
      assert (Hk0 : has k0 out = false).
      { destruct (has k0 out) eqn:Ehas; [| done].
        apply Hkeys, existsb_In in Ehas. congruence. }
      split.
      * intros k. destruct (is_undefined v0 && negb (has k0 props)); simpl.
        -- intros Hk. right. by apply Hkeys.
        -- intros Hk. apply orb_true_iff in Hk as [Hk | Hk].
           ++ left. by apply String.eqb_eq in Hk.
           ++ right. by apply Hkeys.
      * intros k t [[= -> ->] | Hin].
        -- destruct (is_undefined v0 && negb (has k props)) eqn:Edrop; simpl.
           ++ apply andb_true_iff in Edrop as [Hundef Habsent].
              apply is_undefined_true in Hundef as ->.
              apply negb_true_iff in Habsent.
              rewrite (get_missing _ _ Hk0). split; [done | congruence].
           ++ rewrite String.eqb_refl. by split.
        -- destruct (Hfields k t Hin) as [Hparse Hhas].
           assert (Hne : String.eqb k k0 = false).
           { destruct (String.eqb k k0) eqn:Ek; [| done].
             apply String.eqb_eq in Ek as ->.
             assert (Hrest : In k0 (map fst rest)) by (apply (in_map fst _ _ Hin)).
             apply existsb_In in Hrest. congruence. }
           destruct (is_undefined v0 && negb (has k0 props)); simpl.
           ++ by split.
           ++ rewrite Hne. by split.
    + intros [= <- Happ]. apply app_eq_nil in Happ as [-> _].
      by apply parse_invalid_nonempty in E0.
Qed.




Section ReadOperations.

Context `{Validators} `{Adapter} `{Types}.



End ReadOperations.


(** The undeclared [node_id] is dropped, every declared field is kept. *)
Example getWorkflow_returns_modelled_fields :
  completion (@getWorkflow namingRules (upstream (Responded (okWith workflowBody)))
                sampleTypes "octocat" "hello-world" (Num 161335))
  = Return (VObj [("id", VNum 161335); ("name", VStr "CI");
                  ("path", VStr ".github/workflows/ci.yml"); ("state", VStr "active")]).
Proof. vm_compute. reflexivity. Qed.

(** A body without the required [name] is rejected. *)
Example getWorkflow_rejects_missing_name :
  completion (@getWorkflow namingRules
                (upstream (Responded (okWith workflowBodyWithoutName)))
                sampleTypes "octocat" "hello-world" (Num 161335))
  = Throw (ZodError [issue (invalid_type "string") [Key "name"] VUndefined]).
Proof. vm_compute. reflexivity. Qed.

(** ** Schema validation reports every offending field *)

Lemma parse_shape_collects p props shape k t found :
  In (k, t) shape ->
  parse_at t (p ++ [Key k]) (get k props) = Invalid found ->
  forall i, In i found -> In i (snd (parse_shape parse_at p props shape)).
Proof.
  intros Hin E i Hi.
  induction shape as [| [k0 t0] rest IH]; simpl; [done |].
  destruct (parse_shape parse_at p props rest) as [out issues].
  destruct Hin as [[= -> ->] | Hin].
  - rewrite E. simpl. apply in_or_app. by left.
  - specialize (IH Hin). simpl in IH.
    destruct (parse_at t0 (p ++ [Key k0]) (get k0 props)); simpl; [done |].
    apply in_or_app. by right.
Qed.

Lemma object_schema_reports_every_field shape props k t found :
  In (k, t) shape ->
  parse_at t [Key k] (get k props) = Invalid found ->
  exists issues,
    safeParse (z_object shape) (VObj props) = Invalid issues
    /\ forall i, In i found -> In i issues.
Proof.
  intros Hin E. unfold safeParse. simpl.
  pose proof (parse_shape_collects [] props shape k t found Hin E) as Hall.
  pose proof (parse_invalid_nonempty _ _ _ _ E) as Hne.
  destruct (parse_shape parse_at [] props shape) as [out issues]. simpl in *.
  destruct issues as [| i issues].
  - destruct found as [| i found]; [done |]. destruct (Hall i). by left.
  - by exists (i :: issues).
Qed.

(** Two offending fields, two issues. *)
Example listWorkflows_schema_reports_both_fields :
  safeParse ListWorkflowsSchema (VObj [("owner", VNum 7); ("page", VStr "2")])
  = Invalid [issue (invalid_type "string") [Key "owner"] (VNum 7);
             issue (invalid_type "string") [Key "repo"] VUndefined;
             issue (invalid_type "number") [Key "page"] (VStr "2")].
Proof. vm_compute. reflexivity. Qed.

(** ** The operations on concrete calls *)

(** A filtered list-runs call for one workflow: the per-workflow path, and
    the defined filters in declaration order, percent-encoded. *)
Example listWorkflowRuns_filtered_request :
  requests (@listWorkflowRuns namingRules (upstream (Responded noContent)) sampleTypes
              "octocat" "hello-world"
              {| workflowId := Some (Str "ci.yml"); actor := None;
                 branch := Some "feature/x y"; event := None; status := Some "completed";
                 created := None; excludePullRequests := Some true;
                 checkSuiteId := None; page := Some 2; perPage := Some 50 |})
  = [{| url := "https://api.github.com/repos/octocat/hello-world/actions/workflows/ci.yml/runs?branch=feature%2Fx%20y&status=completed&exclude_pull_requests=true&page=2&per_page=50";
        options := no_options |}].
Proof. vm_compute. reflexivity. Qed.

(** A numeric workflow identifier is interpolated as its decimal numeral. *)
Example getWorkflowUsage_request :
  requests (@getWorkflowUsage namingRules (upstream (Responded noContent)) sampleTypes
              "octocat" "hello-world" (Num 161335))
  = [{| url := "https://api.github.com/repos/octocat/hello-world/actions/workflows/161335/timing";
        options := no_options |}].
Proof. vm_compute. reflexivity. Qed.

(** A dispatch with an empty [inputs] mapping sends [ref] alone. *)
Example triggerWorkflow_empty_inputs :
  run (@triggerWorkflow namingRules (upstream (Responded noContent))
         "octocat" "hello-world" (Str "ci.yml") "main" (Some ∅))
  = (Return {| success := true; message := "Workflow ci.yml triggered on main" |},
     [{| url := "https://api.github.com/repos/octocat/hello-world/actions/workflows/ci.yml/dispatches";
         options := {| method := Some "POST";
                       body := Some {| ref := "main"; inputs := None |} |} |}]).
Proof. vm_compute. reflexivity. Qed.

(** A permission failure reaches the caller of an operation unchanged. *)
Example rerunWorkflowRun_forbidden :
  completion (@rerunWorkflowRun namingRules (upstream (Responded forbidden))
                "octocat" "hello-world" 30433642)
  = Throw (GitHub (GitHubPermissionError "GitHub API request failed")).
Proof. vm_compute. reflexivity. Qed.

(** The naming rules on the names of the spec's examples. *)
Example naming_rules_examples :
  accountNameRules "octocat" = Return "octocat"
  /\ repositoryNameRules "hello-world.js" = Return "hello-world.js"
  /\ accountNameRules "-octocat"
     = Throw (validationError "Owner name cannot start or end with a hyphen")
  /\ repositoryNameRules "hello world"
     = Throw (validationError "Repository name contains characters that are not allowed").
Proof. by vm_compute. Qed.

(** * Further properties of the operations and of the tool surface *)

(** ** One request per call *)

Section Pipeline.

Context `{Validators} `{Adapter} `{Types}.

(** How a guarded request runs: it stops at the first failing validator, or
    issues its one request and continues on what the adapter settles. *)
Lemma guardedRequest_run {A : Type} (owner repo : string)
    (u : string -> string -> string) (o : string -> string -> RequestOptions)
    (k : string -> string -> Value -> Completion A) log :
  (exists e, firstFailure owner repo = Some e
             /\ guardedRequest owner repo u o k log = (Throw e, log))
  \/ (exists owner' repo',
        passesValidation owner repo owner' repo'
        /\ guardedRequest owner repo u o k log
           = (match settle (fetch {| url := u owner' repo'; options := o owner' repo' |}) with
              | Return v => k owner' repo' v
              | Throw e => Throw e
              end,
              log ++ [{| url := u owner' repo'; options := o owner' repo' |}])).
Proof.
  unfold guardedRequest, firstFailure, passesValidation.
  destruct (validateOwnerName owner) as [owner' | e] eqn:Eo.
  - destruct (validateRepositoryName repo) as [repo' | e] eqn:Er.
    + right. exists owner', repo'. split; [done |].
      unfold bind at 1 2, call at 1 2. simpl. apply request_then.
    + left. by exists e.
  - left. by exists e.
Qed.

Lemma operations_are_guarded_requests (owner repo : string) :
  (forall page perPage, exists u o k,
     listWorkflows owner repo page perPage = guardedRequest owner repo u o k)
  /\ (forall workflowId, exists u o k,
        getWorkflow owner repo workflowId = guardedRequest owner repo u o k)
  /\ (forall workflowId, exists u o k,
        getWorkflowUsage owner repo workflowId = guardedRequest owner repo u o k)
  /\ (forall options, exists u o k,
        listWorkflowRuns owner repo options = guardedRequest owner repo u o k)
  /\ (forall runId, exists u o k,
        getWorkflowRun owner repo runId = guardedRequest owner repo u o k)
  /\ (forall runId filter page perPage, exists u o k,
        getWorkflowRunJobs owner repo runId filter page perPage
        = guardedRequest owner repo u o k)
  /\ (forall workflowId ref inputs, exists u o k,
        triggerWorkflow owner repo workflowId ref inputs
        = guardedRequest owner repo u o k)
  /\ (forall runId, exists u o k,
        cancelWorkflowRun owner repo runId = guardedRequest owner repo u o k)
  /\ (forall runId, exists u o k,
        rerunWorkflowRun owner repo runId = guardedRequest owner repo u o k).
Proof.
  repeat split; intros; unfold_operation; unfold guardedRequest;
    do 3 eexists; reflexivity.
Qed.

Lemma guardedRequest_singleRoundTrip {A : Type} (owner repo : string)
    (u : string -> string -> string) (o : string -> string -> RequestOptions)
    (k : string -> string -> Value -> Completion A) :
  singleRoundTrip owner repo (guardedRequest owner repo u o k).
Proof.
  intros log.
  destruct (guardedRequest_run owner repo u o k log)
    as [(e & Hfirst & ->) | (owner' & repo' & [Ho Hr] & ->)].
  - exists []. rewrite Hfirst. split; [by rewrite app_nil_r | done].
  - eexists [_]. split; [done |].
    unfold firstFailure. by rewrite Ho, Hr.
Qed.

Lemma guardedRequest_propagates {A : Type} (owner repo : string)
    (u : string -> string -> string) (o : string -> string -> RequestOptions)
    (k : string -> string -> Value -> Completion A) :
  propagatesAdapterErrors (guardedRequest owner repo u o k).
Proof.
  intros req e. unfold requests, completion, run.
  destruct (guardedRequest_run owner repo u o k [])
    as [(e' & Hfirst & ->) | (owner' & repo' & _ & ->)]; simpl.
  - discriminate.
  - intros [= <-] ->. reflexivity.
Qed.

(** X1: every operation only appends to the log of adapter invocations:
    nothing when the owner or the repository name fails validation, and
    exactly one request when both pass; there is no second request and no
    retry. *)
Theorem operations_make_a_single_round_trip (owner repo : string) :
  (forall page perPage, singleRoundTrip owner repo (listWorkflows owner repo page perPage))
  /\ (forall workflowId, singleRoundTrip owner repo (getWorkflow owner repo workflowId))
  /\ (forall workflowId, singleRoundTrip owner repo (getWorkflowUsage owner repo workflowId))
  /\ (forall options, singleRoundTrip owner repo (listWorkflowRuns owner repo options))
  /\ (forall runId, singleRoundTrip owner repo (getWorkflowRun owner repo runId))
  /\ (forall runId filter page perPage,
        singleRoundTrip owner repo (getWorkflowRunJobs owner repo runId filter page perPage))
  /\ (forall workflowId ref inputs,
        singleRoundTrip owner repo (triggerWorkflow owner repo workflowId ref inputs))
  /\ (forall runId, singleRoundTrip owner repo (cancelWorkflowRun owner repo runId))
  /\ (forall runId, singleRoundTrip owner repo (rerunWorkflowRun owner repo runId)).
Proof.
  destruct (operations_are_guarded_requests owner repo)
    as (G1 & G2 & G3 & G4 & G5 & G6 & G7 & G8 & G9).
  split; [| split; [| split; [| split; [| split; [| split; [| split; [| split]]]]]]].
  - intros a b. destruct (G1 a b) as (u & o & k & ->). apply guardedRequest_singleRoundTrip.
  - intros a. destruct (G2 a) as (u & o & k & ->). apply guardedRequest_singleRoundTrip.
  - intros a. destruct (G3 a) as (u & o & k & ->). apply guardedRequest_singleRoundTrip.
  - intros a. destruct (G4 a) as (u & o & k & ->). apply guardedRequest_singleRoundTrip.
  - intros a. destruct (G5 a) as (u & o & k & ->). apply guardedRequest_singleRoundTrip.
  - intros a b c d. destruct (G6 a b c d) as (u & o & k & ->). apply guardedRequest_singleRoundTrip.
  - intros a b c. destruct (G7 a b c) as (u & o & k & ->). apply guardedRequest_singleRoundTrip.
  - intros a. destruct (G8 a) as (u & o & k & ->). apply guardedRequest_singleRoundTrip.
  - intros a. destruct (G9 a) as (u & o & k & ->). apply guardedRequest_singleRoundTrip.
Qed.

(** X2: no operation catches: when the adapter throws for the request of an
    operation, the operation throws that very error. *)
Theorem operations_propagate_adapter_errors (owner repo : string) :
  (forall page perPage, propagatesAdapterErrors (listWorkflows owner repo page perPage))
  /\ (forall workflowId, propagatesAdapterErrors (getWorkflow owner repo workflowId))
  /\ (forall workflowId, propagatesAdapterErrors (getWorkflowUsage owner repo workflowId))
  /\ (forall options, propagatesAdapterErrors (listWorkflowRuns owner repo options))
  /\ (forall runId, propagatesAdapterErrors (getWorkflowRun owner repo runId))
  /\ (forall runId filter page perPage,
        propagatesAdapterErrors (getWorkflowRunJobs owner repo runId filter page perPage))
  /\ (forall workflowId ref inputs,
        propagatesAdapterErrors (triggerWorkflow owner repo workflowId ref inputs))
  /\ (forall runId, propagatesAdapterErrors (cancelWorkflowRun owner repo runId))
  /\ (forall runId, propagatesAdapterErrors (rerunWorkflowRun owner repo runId)).
Proof.
  destruct (operations_are_guarded_requests owner repo)
    as (G1 & G2 & G3 & G4 & G5 & G6 & G7 & G8 & G9).
  split; [| split; [| split; [| split; [| split; [| split; [| split; [| split]]]]]]].
  - intros a b. destruct (G1 a b) as (u & o & k & ->). apply guardedRequest_propagates.
  - intros a. destruct (G2 a) as (u & o & k & ->). apply guardedRequest_propagates.
  - intros a. destruct (G3 a) as (u & o & k & ->). apply guardedRequest_propagates.
  - intros a. destruct (G4 a) as (u & o & k & ->). apply guardedRequest_propagates.
  - intros a. destruct (G5 a) as (u & o & k & ->). apply guardedRequest_propagates.
  - intros a b c d. destruct (G6 a b c d) as (u & o & k & ->). apply guardedRequest_propagates.
  - intros a b c. destruct (G7 a b c) as (u & o & k & ->). apply guardedRequest_propagates.
  - intros a. destruct (G8 a) as (u & o & k & ->). apply guardedRequest_propagates.
  - intros a. destruct (G9 a) as (u & o & k & ->). apply guardedRequest_propagates.
Qed.

End Pipeline.

(** ** Strings *)

Lemma append_assoc (a b c : string) : (a +:+ b) +:+ c = a +:+ b +:+ c.
Proof.
  induction a as [| x a IH]; [done |].
  change (String x ((a +:+ b) +:+ c) = String x (a +:+ b +:+ c)). by rewrite IH.
Qed.

Lemma append_nil_r (a : string) : a +:+ "" = a.
Proof.
  induction a as [| x a IH]; [done |].
  change (String x (a +:+ "") = String x a). by rewrite IH.
Qed.




(** ** The request of each operation *)

Section OperationRequests.

Context `{Validators} `{Adapter} `{Types}.

Ltac request_of Hpass :=
  unfold requests, run; unfold_operation;
  rewrite (guarded_passes _ _ _ _ _ _ Hpass); cbv zeta;
  first [rewrite request_then | rewrite request_then_ret]; reflexivity.

(** With both names valid, the one request of each operation. *)
Lemma operation_requests (owner repo owner' repo' : string) :
  passesValidation owner repo owner' repo' ->
  (forall page perPage,
     requests (listWorkflows owner repo page perPage)
     = [{| url := buildUrl ("https://api.github.com/repos/" +:+ owner' +:+ "/" +:+ repo'
                              +:+ "/actions/workflows")
                    [("page", QNum <$> page); ("per_page", QNum <$> perPage)];
           options := no_options |}])
  /\ (forall workflowId,
        requests (getWorkflow owner repo workflowId)
        = [{| url := "https://api.github.com/repos/" +:+ owner' +:+ "/" +:+ repo'
                       +:+ "/actions/workflows/" +:+ toString workflowId;
              options := no_options |}])
  /\ (forall workflowId,
        requests (getWorkflowUsage owner repo workflowId)
        = [{| url := "https://api.github.com/repos/" +:+ owner' +:+ "/" +:+ repo'
                       +:+ "/actions/workflows/" +:+ toString workflowId +:+ "/timing";
              options := no_options |}])
  /\ (forall runId,
        requests (getWorkflowRun owner repo runId)
        = [{| url := "https://api.github.com/repos/" +:+ owner' +:+ "/" +:+ repo'
                       +:+ "/actions/runs/" +:+ Number_toString runId;
              options := no_options |}])
  /\ (forall runId filter page perPage,
        requests (getWorkflowRunJobs owner repo runId filter page perPage)
        = [{| url := buildUrl ("https://api.github.com/repos/" +:+ owner' +:+ "/" +:+ repo'
                                 +:+ "/actions/runs/" +:+ Number_toString runId +:+ "/jobs")
                       [("filter", QStr <$> filter); ("page", QNum <$> page);
                        ("per_page", QNum <$> perPage)];
              options := no_options |}])
  /\ (forall workflowId ref inputs, exists b,
        requests (triggerWorkflow owner repo workflowId ref inputs)
        = [{| url := "https://api.github.com/repos/" +:+ owner' +:+ "/" +:+ repo'
                       +:+ "/actions/workflows/" +:+ toString workflowId +:+ "/dispatches";
              options := post (Some b) |}])
  /\ (forall runId,
        requests (cancelWorkflowRun owner repo runId)
        = [{| url := "https://api.github.com/repos/" +:+ owner' +:+ "/" +:+ repo'
                       +:+ "/actions/runs/" +:+ Number_toString runId +:+ "/cancel";
              options := post None |}])
  /\ (forall runId,
        requests (rerunWorkflowRun owner repo runId)
        = [{| url := "https://api.github.com/repos/" +:+ owner' +:+ "/" +:+ repo'
                       +:+ "/actions/runs/" +:+ Number_toString runId +:+ "/rerun";
              options := post None |}]).
Proof.
  intros Hpass.
  split; [| split; [| split; [| split; [| split; [| split; [| split]]]]]]; intros;
    try (eexists); request_of Hpass.
Qed.

End OperationRequests.

(** ** Acknowledgment of a dispatch *)

Section DispatchAcknowledgment.

Context `{Validators} `{Adapter} `{Types}.


End DispatchAcknowledgment.


(** ** Filters and pagination in the query *)

Lemma searchParam_other (key k : string) (v : option QueryValue)
    (rest : list (string * option QueryValue)) :
  String.eqb key k = false ->
  searchParam key (queryEntries ((k, v) :: rest)) = searchParam key (queryEntries rest).
Proof.
  intros Hne. destruct v as [x |]; simpl; [by rewrite Hne | done].
Qed.

Lemma searchParam_hit (k : string) (v : option QueryValue)
    (rest : list (string * option QueryValue)) :
  searchParam k (queryEntries ((k, v) :: rest))
  = match v with
    | Some x => Some (QueryValue_toString x)
    | None => searchParam k (queryEntries rest)
    end.
Proof. destruct v as [x |]; simpl; [by rewrite String.eqb_refl | done]. Qed.

Lemma searchParam_declared (k v : string) (params : list (string * option QueryValue)) :
  searchParam k (queryEntries params) = Some v -> In k (map fst params).
Proof.
  induction params as [| [k' [x |]] rest IH]; simpl; [done | |].
  - destruct (String.eqb k k') eqn:E.
    + apply String.eqb_eq in E as ->. auto.
    + auto.
  - auto.
Qed.

Lemma searchParam_hit_fmap {A : Type} (k : string) (f : A -> QueryValue)
    (v : option A) (rest : list (string * option QueryValue)) :
  searchParam k (queryEntries ((k, f <$> v) :: rest))
  = match v with
    | Some x => Some (QueryValue_toString (f x))
    | None => searchParam k (queryEntries rest)
    end.
Proof. destruct v as [x |]; simpl; [by rewrite String.eqb_refl | done]. Qed.

Ltac search_param :=
  repeat (rewrite searchParam_other by reflexivity);
  rewrite searchParam_hit_fmap;
  match goal with
  | |- match ?v with _ => _ end = _ =>
      destruct v; [reflexivity |];
      repeat (rewrite searchParam_other by reflexivity); reflexivity
  end.

Lemma runsQuery_filters (options : ListWorkflowRunsOptions) :
  let entries := queryEntries (runsQuery options) in
  searchParam "actor" entries = actor options
  /\ searchParam "branch" entries = branch options
  /\ searchParam "event" entries = event options
  /\ searchParam "status" entries = status options
  /\ searchParam "created" entries = created options
  /\ searchParam "check_suite_id" entries = Number_toString <$> checkSuiteId options
  /\ searchParam "page" entries = Number_toString <$> page options
  /\ searchParam "per_page" entries = Number_toString <$> perPage options.
Proof.
  unfold runsQuery. cbv zeta. repeat split; search_param.
Qed.

Section Queries.

Context `{Validators} `{Adapter} `{Types}.

(** X4: every filter of [listWorkflowRuns] other than the pull-request flag
    reaches the query under its API key with its own value, and is absent
    from the query when it is absent from the options; the query has no
    key besides the nine the function declares. *)
Theorem listWorkflowRuns_filters_reach_the_query (owner repo owner' repo' : string)
    (options : ListWorkflowRunsOptions) :
  passesValidation owner repo owner' repo' ->
  exists entries,
    requests (listWorkflowRuns owner repo options)
    = [{| url := runsPath owner' repo' options +:+ queryString entries;
          options := no_options |}]
    /\ searchParam "actor" entries = actor options
    /\ searchParam "branch" entries = branch options
    /\ searchParam "event" entries = event options
    /\ searchParam "status" entries = status options
    /\ searchParam "created" entries = created options
    /\ searchParam "check_suite_id" entries = Number_toString <$> checkSuiteId options
    /\ searchParam "page" entries = Number_toString <$> page options
    /\ searchParam "per_page" entries = Number_toString <$> perPage options
    /\ (forall k v, searchParam k entries = Some v ->
          In k ["actor"; "branch"; "event"; "status"; "created";
                "exclude_pull_requests"; "check_suite_id"; "page"; "per_page"]).
Proof.
  intros Hpass. exists (queryEntries (runsQuery options)).
  split; [by apply listWorkflowRuns_request |].
  destruct (runsQuery_filters options) as (Ha & Hb & He & Hs & Hc & Hk & Hp & Hpp).
  repeat (split; [assumption |]).
  intros k v Hk'. exact (searchParam_declared k v (runsQuery options) Hk').
Qed.

(** X5: [listWorkflows] and [getWorkflowRunJobs] send [page] and [perPage]
    (and [filter]) under the keys [page], [per_page] (and [filter]), each
    only when given, and send no query entry at all when none is given. *)
Theorem pagination_reaches_the_query (owner repo owner' repo' : string) :
  passesValidation owner repo owner' repo' ->
  (forall page perPage, exists entries,
     requests (listWorkflows owner repo page perPage)
     = [{| url := ("https://api.github.com/repos/" +:+ owner' +:+ "/" +:+ repo'
                     +:+ "/actions/workflows") +:+ queryString entries;
           options := no_options |}]
     /\ searchParam "page" entries = Number_toString <$> page
     /\ searchParam "per_page" entries = Number_toString <$> perPage
     /\ (forall k v, searchParam k entries = Some v -> In k ["page"; "per_page"])
     /\ (page = None -> perPage = None -> entries = []))
  /\ (forall runId filter page perPage, exists entries,
        requests (getWorkflowRunJobs owner repo runId filter page perPage)
        = [{| url := ("https://api.github.com/repos/" +:+ owner' +:+ "/" +:+ repo'
                        +:+ "/actions/runs/" +:+ Number_toString runId +:+ "/jobs")
                     +:+ queryString entries;
              options := no_options |}]
        /\ searchParam "filter" entries = filter
        /\ searchParam "page" entries = Number_toString <$> page
        /\ searchParam "per_page" entries = Number_toString <$> perPage
        /\ (forall k v, searchParam k entries = Some v ->
              In k ["filter"; "page"; "per_page"])
        /\ (filter = None -> page = None -> perPage = None -> entries = [])).
Proof.
  intros Hpass.
  destruct (operation_requests owner repo owner' repo' Hpass)
    as (Hlist & _ & _ & _ & Hjobs & _).
  split.
  - intros page perPage.
    exists (queryEntries [("page", QNum <$> page); ("per_page", QNum <$> perPage)]).
    split; [apply Hlist |].
    split; [search_param |]. split; [search_param |].
    split; [intros k v Hk; exact (searchParam_declared k v _ Hk) |].
    by intros -> ->.
  - intros runId filter page perPage.
    exists (queryEntries [("filter", QStr <$> filter); ("page", QNum <$> page);
                          ("per_page", QNum <$> perPage)]).
    split; [apply Hjobs |].
    split; [search_param |]. split; [search_param |]. split; [search_param |].
    split; [intros k v Hk; exact (searchParam_declared k v _ Hk) |].
    by intros -> -> ->.
Qed.

End Queries.

Lemma listWorkflowRuns_filters_reach_the_query_witness :
  @passesValidation namingRules "octocat" "hello-world" "octocat" "hello-world"
  /\ exists entries,
       requests (@listWorkflowRuns namingRules (upstream (Responded noContent))
                   sampleTypes "octocat" "hello-world"
                   {| workflowId := None; actor := Some "octocat"; branch := Some "main";
                      event := None; status := None; created := None;
                      excludePullRequests := None; checkSuiteId := Some 42;
                      page := None; perPage := Some 50 |})
       = [{| url := "https://api.github.com/repos/octocat/hello-world/actions/runs"
                      +:+ queryString entries;
             options := no_options |}]
       /\ searchParam "branch" entries = Some "main"
       /\ searchParam "check_suite_id" entries = Some "42"
       /\ searchParam "per_page" entries = Some "50"
       /\ searchParam "event" entries = None.
Proof.
  assert (Hpass : @passesValidation namingRules
                    "octocat" "hello-world" "octocat" "hello-world").
  { split; vm_compute; reflexivity. }
  split; [exact Hpass |].
  destruct (@listWorkflowRuns_filters_reach_the_query
              namingRules (upstream (Responded noContent)) sampleTypes
              "octocat" "hello-world" "octocat" "hello-world"
              {| workflowId := None; actor := Some "octocat"; branch := Some "main";
                 event := None; status := None; created := None;
                 excludePullRequests := None; checkSuiteId := Some 42;
                 page := None; perPage := Some 50 |} Hpass)
    as (entries & Hreq & _ & Hbranch & Hevent & _ & _ & Hsuite & _ & Hper & _).
  exists entries. by repeat split.
Defined.

Lemma pagination_reaches_the_query_witness :
  @passesValidation namingRules "octocat" "hello-world" "octocat" "hello-world"
  /\ exists entries,
       requests (@getWorkflowRunJobs namingRules (upstream (Responded noContent))
                   sampleTypes "octocat" "hello-world" 30433642 (Some "latest") None (Some 20))
       = [{| url := "https://api.github.com/repos/octocat/hello-world/actions/runs/30433642/jobs"
                      +:+ queryString entries;
             options := no_options |}]
       /\ searchParam "filter" entries = Some "latest"
       /\ searchParam "page" entries = None
       /\ searchParam "per_page" entries = Some "20".
Proof.
  assert (Hpass : @passesValidation namingRules
                    "octocat" "hello-world" "octocat" "hello-world").
  { split; vm_compute; reflexivity. }
  split; [exact Hpass |].
  destruct (@pagination_reaches_the_query
              namingRules (upstream (Responded noContent)) sampleTypes
              "octocat" "hello-world" "octocat" "hello-world" Hpass) as (_ & Hjobs).
  destruct (Hjobs 30433642 (Some "latest") None (Some 20))
    as (entries & Hreq & Hfilter & Hpage & Hper & _).
  exists entries. by repeat split.
Defined.

(** ** How the URLs of the operations relate *)

Section Urls.

Context `{Validators} `{Adapter} `{Types}.

(** X6: the URLs of the operations on one workflow extend the URL of
    [getWorkflow] by [/timing], [/dispatches] and [/runs], and those of the
    operations on one run extend the URL of [getWorkflowRun] by [/jobs],
    [/cancel] and [/rerun]. *)
Theorem subresource_urls_extend_resource_urls (owner repo owner' repo' : string)
    (workflowId : StringOrNumber) (runId : Z) :
  passesValidation owner repo owner' repo' ->
  requests (getWorkflow owner repo workflowId)
  = [{| url := workflowUrl owner' repo' workflowId; options := no_options |}]
  /\ requests (getWorkflowUsage owner repo workflowId)
     = [{| url := workflowUrl owner' repo' workflowId +:+ "/timing";
           options := no_options |}]
  /\ (forall ref inputs, exists b,
        requests (triggerWorkflow owner repo workflowId ref inputs)
        = [{| url := workflowUrl owner' repo' workflowId +:+ "/dispatches";
              options := post (Some b) |}])
  /\ (forall options,
        Actions.workflowId options = Some workflowId -> truthy (Some workflowId) = true ->
        exists entries,
          requests (listWorkflowRuns owner repo options)
          = [{| url := (workflowUrl owner' repo' workflowId +:+ "/runs")
                         +:+ queryString entries;
                options := no_options |}])
  /\ requests (getWorkflowRun owner repo runId)
     = [{| url := runUrl owner' repo' runId; options := no_options |}]
  /\ (forall filter page perPage, exists entries,
        requests (getWorkflowRunJobs owner repo runId filter page perPage)
        = [{| url := (runUrl owner' repo' runId +:+ "/jobs") +:+ queryString entries;
              options := no_options |}])
  /\ requests (cancelWorkflowRun owner repo runId)
     = [{| url := runUrl owner' repo' runId +:+ "/cancel"; options := post None |}]
  /\ requests (rerunWorkflowRun owner repo runId)
     = [{| url := runUrl owner' repo' runId +:+ "/rerun"; options := post None |}].
Proof.
  intros Hpass.
  destruct (operation_requests owner repo owner' repo' Hpass)
    as (_ & Hget & Husage & Hrun & Hjobs & Htrigger & Hcancel & Hrerun).
  unfold workflowUrl, runUrl. rewrite !append_assoc.
  split; [apply Hget |]. split; [apply Husage |].
  split; [intros ref inputs; apply Htrigger |].
  split.
  { intros options Hid Htruthy. exists (queryEntries (runsQuery options)).
    rewrite (listWorkflowRuns_request _ _ _ _ options Hpass).
    unfold buildUrl, runsPath. rewrite Hid, Htruthy. simpl interpolate.
    by rewrite !append_assoc. }
  split; [apply Hrun |].
  split.
  { intros filter page perPage. eexists.
    rewrite (Hjobs runId filter page perPage). unfold buildUrl.
    by rewrite !append_assoc. }
  split; [apply Hcancel | apply Hrerun].
Qed.


End Urls.

Lemma subresource_urls_extend_resource_urls_witness :
  @passesValidation namingRules "octocat" "hello-world" "octocat" "hello-world"
  /\ requests (@getWorkflowUsage namingRules (upstream (Responded noContent)) sampleTypes
                 "octocat" "hello-world" (Str "ci.yml"))
     = [{| url := workflowUrl "octocat" "hello-world" (Str "ci.yml") +:+ "/timing";
           options := no_options |}]
  /\ requests (@cancelWorkflowRun namingRules (upstream (Responded noContent))
                 "octocat" "hello-world" 30433642)
     = [{| url := runUrl "octocat" "hello-world" 30433642 +:+ "/cancel";
           options := post None |}].
Proof.
  assert (Hpass : @passesValidation namingRules
                    "octocat" "hello-world" "octocat" "hello-world").
  { split; vm_compute; reflexivity. }
  split; [exact Hpass |].
  destruct (@subresource_urls_extend_resource_urls
              namingRules (upstream (Responded noContent)) sampleTypes
              "octocat" "hello-world" "octocat" "hello-world"
              (Str "ci.yml") 30433642 Hpass)
    as (_ & Husage & _ & _ & _ & _ & Hcancel & _).
  by split.
Defined.


(** ** What the parameter schemas hand to the handlers *)

Lemma flat_parse_identity (t : ZodType) : forall p v out,
  flat t = true -> parse_at t p v = Valid out -> out = v.
Proof.
  induction t using ZodType_ind'; intros p v out Hflat; simpl in *; try done.
  - destruct v; try done. by intros [= <-].
  - destruct v; try done. by intros [= <-].
  - destruct v; try done. by intros [= <-].
  - destruct v; try done. destruct (existsb _ _); [| done]. by intros [= <-].
  - intros Hfirst. apply parse_first_valid in Hfirst as (o & Hin & Ho).
    rewrite List.Forall_forall in H. rewrite forallb_forall in Hflat.
    by apply (H o Hin p v out (Hflat o Hin)).
  - destruct v; try (by apply IHt). by intros [= <-].
  - destruct v; try (by apply IHt). by intros [= <-].
  - by apply IHt.
Qed.

Lemma object_schema_accepts (shape : list (string * ZodType)) (input out : Value) :
  distinct (map fst shape) = true ->
  safeParse (z_object shape) input = Valid out ->
  exists given kept,
    input = VObj given /\ out = VObj kept
    /\ (forall k, has k kept = true -> In k (map fst shape))
    /\ (forall k t, In (k, t) shape ->
          parse_at t [Key k] (get k given) = Valid (get k kept)).
Proof.
  intros Hdistinct. unfold safeParse. simpl.
  destruct input as [| | | | | | given]; try done.
  intros Hfinish. apply finish_valid in Hfinish as [Hnil ->].
  destruct (parse_shape parse_at [] given shape) as [kept issues] eqn:E.
  simpl in *. subst issues.
  destruct (parse_shape_kept _ _ _ _ Hdistinct E) as [Hkeys Hfields].
  exists given, kept. split; [done |]. split; [done |]. split; [done |].
  intros k t Hin. by destruct (Hfields k t Hin).
Qed.

Lemma string_field_accepted (k d : string) (given kept : list (string * Value)) :
  parse_at (z_describe z_string d) [Key k] (get k given) = Valid (get k kept) ->
  isString (get k given) = true.
Proof. simpl. by destruct (get k given). Qed.

Lemma number_field_accepted (k d : string) (given kept : list (string * Value)) :
  parse_at (z_describe z_number d) [Key k] (get k given) = Valid (get k kept) ->
  isNumber (get k given) = true.
Proof. simpl. by destruct (get k given). Qed.

(** X8: an input accepted by the parameter schema of any registered tool is
    an object whose [owner] and [repo] are strings (and whose [runId] is a
    number and [ref] a string where declared); the parsed parameters carry
    only declared keys, and every scalar parameter is handed on unchanged. *)
Theorem accepted_parameters_pass_through (tool : Tool) (input out : Value) :
  In tool tools ->
  safeParse (z_object (paramsSchema tool)) input = Valid out ->
  exists given kept,
    input = VObj given /\ out = VObj kept
    /\ (forall k, has k kept = true -> In k (map fst (paramsSchema tool)))
    /\ (forall k t, In (k, t) (paramsSchema tool) -> flat t = true ->
          get k kept = get k given)
    /\ isString (get "owner" given) = true
    /\ isString (get "repo" given) = true
    /\ (forall d, In ("runId", z_describe z_number d) (paramsSchema tool) ->
          isNumber (get "runId" given) = true)
    /\ (forall d, In ("ref", z_describe z_string d) (paramsSchema tool) ->
          isString (get "ref" given) = true).
Proof.
  intros Htool Hparse.
  assert (Hdistinct : distinct (map fst (paramsSchema tool)) = true).
  { simpl in Htool.
    repeat (destruct Htool as [<- | Htool]; [by vm_compute |]). done. }
  assert (Howner : In ("owner", z_describe z_string "Repository owner (username or organization)")
                      (paramsSchema tool)).
  { simpl in Htool.
    repeat (destruct Htool as [<- | Htool]; [simpl; auto |]). done. }
  assert (Hrepo : In ("repo", z_describe z_string "Repository name") (paramsSchema tool)).
  { simpl in Htool.
    repeat (destruct Htool as [<- | Htool]; [simpl; auto |]). done. }
  destruct (object_schema_accepts _ _ _ Hdistinct Hparse)
    as (given & kept & -> & -> & Hkeys & Hfields).
  exists given, kept.
  split; [done |]. split; [done |]. split; [done |].
  split; [| split; [| split; [| split]]].
  - intros k t Hin Hflat.
    exact (flat_parse_identity t _ _ _ Hflat (Hfields k t Hin)).
  - exact (string_field_accepted _ _ _ _ (Hfields _ _ Howner)).
  - exact (string_field_accepted _ _ _ _ (Hfields _ _ Hrepo)).
  - intros d Hin. exact (number_field_accepted _ _ _ _ (Hfields _ _ Hin)).
  - intros d Hin. exact (string_field_accepted _ _ _ _ (Hfields _ _ Hin)).
Qed.

Lemma accepted_parameters_pass_through_witness :
  (In {| name := "cancel_workflow_run";
         description := "Cancel a workflow run";
         paramsSchema := shape_of CancelWorkflowRunSchema;
         handler := CancelWorkflowRun |} tools
   /\ safeParse (z_object (shape_of CancelWorkflowRunSchema))
        (VObj [("runId", VNum 30433642); ("owner", VStr "octocat");
               ("verbose", VBool true); ("repo", VStr "hello-world")])
      = Valid (VObj [("owner", VStr "octocat"); ("repo", VStr "hello-world");
                     ("runId", VNum 30433642)]))
  /\ exists given kept,
       VObj [("runId", VNum 30433642); ("owner", VStr "octocat");
             ("verbose", VBool true); ("repo", VStr "hello-world")] = VObj given
       /\ VObj [("owner", VStr "octocat"); ("repo", VStr "hello-world");
                ("runId", VNum 30433642)] = VObj kept
       /\ has "verbose" kept = false
       /\ get "runId" kept = get "runId" given
       /\ isNumber (get "runId" given) = true.
Proof.
  assert (Hin : In {| name := "cancel_workflow_run";
                      description := "Cancel a workflow run";
                      paramsSchema := shape_of CancelWorkflowRunSchema;
                      handler := CancelWorkflowRun |} tools).
  { do 7 right. left. reflexivity. }
  assert (Hparse : safeParse (z_object (shape_of CancelWorkflowRunSchema))
                     (VObj [("runId", VNum 30433642); ("owner", VStr "octocat");
                            ("verbose", VBool true); ("repo", VStr "hello-world")])
                   = Valid (VObj [("owner", VStr "octocat"); ("repo", VStr "hello-world");
                                  ("runId", VNum 30433642)]))
    by (vm_compute; reflexivity).
  split; [by split |].
  destruct (accepted_parameters_pass_through _ _ _ Hin Hparse)
    as (given & kept & Egiven & Ekept & Hkeys & Hflat & _ & _ & HrunId & _).
  exists given, kept. split; [exact Egiven |]. split; [exact Ekept |].
  split; [| split].
  - destruct (has "verbose" kept) eqn:E; [| done].
    apply Hkeys in E. simpl in E. intuition discriminate.
  - apply (Hflat "runId" (z_describe z_number "The ID of the workflow run"));
      [simpl; auto | reflexivity].
  - apply (HrunId "The ID of the workflow run"). simpl; auto.
Defined.

(** ** Error messages at the boundary *)

Section ErrorMessages.

Context `{Runtime}.

Lemma formatGitHubError_includes_message (e : GitHubError) (s : string) :
  formatGitHubError e = Return s -> includes s (messageOf e).
Proof.
  destruct e as [m response | m | m | m | m [t |] | m | m ms | m code | m st response];
    simpl; try done.
  - destruct (ToBoolean response); intros [= <-].
    + by exists "Validation Error: ", (newline +:+ "Details: " +:+ JSON_stringify response).
    + exists "Validation Error: ", "". by rewrite append_nil_r.
  - intros [= <-]. exists "Not Found: ", "". by rewrite append_nil_r.
  - intros [= <-]. exists "Authentication Failed: ", "". by rewrite append_nil_r.
  - intros [= <-]. exists "Permission Denied: ", "". by rewrite append_nil_r.
  - intros [= <-].
    by exists "Rate Limit Exceeded: ", (newline +:+ "Resets at: " +:+ Date_toISOString t).
  - intros [= <-]. exists "Conflict: ", "". by rewrite append_nil_r.
  - intros [= <-].
    by exists "Timeout: ",
         (newline +:+ "Timeout setting: " +:+ Number_toString ms +:+ "ms").
  - intros [= <-]. by exists "Network Error: ", (newline +:+ "Error code: " +:+ code).
  - intros [= <-]. exists "GitHub API Error: ", "". by rewrite append_nil_r.
Qed.

Lemma formatGitHubError_prefix (e : GitHubError) (s : string) :
  formatGitHubError e = Return s ->
  exists rest,
    s = match kindOf e with
        | Validation => "Va" | NotFound => "No" | Authentication => "Au"
        | Permission => "Pe" | RateLimit => "Ra" | Conflict => "Co"
        | Timeout => "Ti" | Network => "Ne" | Generic => "Gi"
        end +:+ rest.
Proof.
  destruct e as [m response | m | m | m | m [t |] | m | m ms | m code | m st response];
    simpl; try done; try (intros [= <-]; eexists; reflexivity).
  destruct (ToBoolean response); intros [= <-]; eexists; reflexivity.
Qed.

(** X9: the text [formatGitHubError] builds contains the message of the
    error, and two errors formatted to the same text are of the same kind:
    the prefixes keep the kinds apart. *)
Theorem formatted_message_tells_kind_and_message (e1 e2 : GitHubError) (s : string) :
  formatGitHubError e1 = Return s ->
  includes s (messageOf e1)
  /\ (formatGitHubError e2 = Return s -> kindOf e1 = kindOf e2).
Proof.
  intros E1. split; [by apply formatGitHubError_includes_message |].
  intros E2.
  destruct (formatGitHubError_prefix e1 s E1) as [r1 P1].
  destruct (formatGitHubError_prefix e2 s E2) as [r2 P2].
  rewrite P1 in P2. clear -P2.
  destruct (kindOf e1), (kindOf e2); try reflexivity;
    cbv [String.append] in P2; discriminate P2.
Qed.

Lemma errorHandler_cases (error : Exception) :
  (exists m, error = GitHub (GitHubRateLimitError m None)
             /\ errorHandler error = Throw (PlainError "Invalid time value"))
  \/ (exists text, errorHandler error = Return (PlainError text)).
Proof.
  destruct error as [e | issues | m].
  - destruct (formatGitHubError e) as [text | thrown] eqn:E.
    + right. exists text. simpl. by rewrite E.
    + left. destruct e as [? response | ? | ? | ? | m [t |] | ? | ? ? | ? ? | ? ? ?];
        simpl in E; try done.
      * by destruct (ToBoolean response).
      * injection E as <-. exists m. simpl. by split.
  - right. by eexists.
  - right. by exists m.
Qed.

(** X10: [errorHandler] returns a plain [Error], which it would return
    unchanged if handed it again, for every error but one: a rate-limit
    error whose reset date is invalid makes the formatting throw. *)
Theorem errorHandler_fails_only_on_invalid_reset_date (error : Exception) :
  (exists m, error = GitHub (GitHubRateLimitError m None)
             /\ errorHandler error = Throw (PlainError "Invalid time value"))
  \/ (exists text,
        errorHandler error = Return (PlainError text)
        /\ errorHandler (PlainError text) = Return (PlainError text)
        /\ (forall m, error = PlainError m -> text = m)).
Proof.
  destruct (errorHandler_cases error) as [Hthrow | (text & E)]; [by left |].
  right. exists text. repeat split; [done |].
  intros m ->. simpl in E. by injection E.
Qed.

End ErrorMessages.

Lemma formatted_message_tells_kind_and_message_witness :
  @formatGitHubError sampleRuntime (GitHubTimeoutError "no answer" 30000)
  = Return ("Timeout: no answer" +:+ newline +:+ "Timeout setting: 30000ms")
  /\ includes ("Timeout: no answer" +:+ newline +:+ "Timeout setting: 30000ms")
       "no answer".
Proof.
  assert (E : @formatGitHubError sampleRuntime (GitHubTimeoutError "no answer" 30000)
              = Return ("Timeout: no answer" +:+ newline +:+ "Timeout setting: 30000ms"))
    by (vm_compute; reflexivity).
  split; [exact E |].
  exact (proj1 (@formatted_message_tells_kind_and_message
                  sampleRuntime (GitHubTimeoutError "no answer" 30000)
                  (GitHubTimeoutError "no answer" 30000) _ E)).
Defined.

(** ** Tool calls *)

Section ToolCalls.

Context `{Validators} `{Adapter} `{Types} `{Runtime} `{Responses}.

Lemma bind_guardedRequest {A B : Type} (owner repo : string)
    (u : string -> string -> string) (o : string -> string -> RequestOptions)
    (k : string -> string -> Value -> Completion A) (w : A -> B) log :
  bind (guardedRequest owner repo u o k) (fun r => ret (w r)) log
  = guardedRequest owner repo u o
      (fun owner repo v =>
         match k owner repo v with
         | Return r => Return (w r)
         | Throw e => Throw e
         end) log.
Proof.
  unfold guardedRequest, bind, call, ret, githubRequest.
  destruct (validateOwnerName owner) as [owner' | e]; [| done].
  destruct (validateRepositoryName repo) as [repo' | e]; [| done].
  destruct (settle _) as [v | e]; [| done].
  by destruct (k owner' repo' v).
Qed.

(** The [try] block of every handler is a guarded request. *)
Lemma invoke_guarded (c : ToolCall) :
  exists u o k, forall log,
    invoke c log = guardedRequest (ownerOf c) (repoOf c) u o k log.
Proof.
  destruct c as [owner repo page perPage | owner repo workflowId | owner repo workflowId
                 | owner repo options | owner repo runId
                 | owner repo runId filter page perPage
                 | owner repo workflowId ref inputs | owner repo runId | owner repo runId];
    destruct (operations_are_guarded_requests owner repo)
      as (G1 & G2 & G3 & G4 & G5 & G6 & G7 & G8 & G9); simpl.
  - destruct (G1 page perPage) as (u & o & k & ->).
    do 3 eexists. intros log. apply bind_guardedRequest.
  - destruct (G2 workflowId) as (u & o & k & ->).
    do 3 eexists. intros log. apply bind_guardedRequest.
  - destruct (G3 workflowId) as (u & o & k & ->).
    do 3 eexists. intros log. apply bind_guardedRequest.
  - destruct (G4 options) as (u & o & k & ->).
    do 3 eexists. intros log. apply bind_guardedRequest.
  - destruct (G5 runId) as (u & o & k & ->).
    do 3 eexists. intros log. apply bind_guardedRequest.
  - destruct (G6 runId filter page perPage) as (u & o & k & ->).
    do 3 eexists. intros log. apply bind_guardedRequest.
  - destruct (G7 workflowId ref inputs) as (u & o & k & ->).
    do 3 eexists. intros log. apply bind_guardedRequest.
  - destruct (G8 runId) as (u & o & k & ->).
    do 3 eexists. intros log. apply bind_guardedRequest.
  - destruct (G9 runId) as (u & o & k & ->).
    do 3 eexists. intros log. apply bind_guardedRequest.
Qed.

Lemma handle_log (c : ToolCall) log : snd (handle c log) = snd (invoke c log).
Proof. unfold handle. by destruct (invoke c log) as [[result | error] log']. Qed.

(** X11: a tool call issues the requests of its operation, at most one, and
    resolves with a response whether the operation returns or throws; it
    rejects only when the operation throws a rate-limit error whose reset
    date is invalid. *)
Theorem tool_call_always_answers (c : ToolCall) log :
  (exists issued,
     snd (handle c log) = log ++ issued
     /\ length issued = match firstFailure (ownerOf c) (repoOf c) with
                        | Some _ => 0%nat
                        | None => 1%nat
                        end)
  /\ ((exists response, fst (handle c log) = Return response)
      \/ (exists m,
            fst (invoke c log) = Throw (GitHub (GitHubRateLimitError m None))
            /\ fst (handle c log) = Throw (PlainError "Invalid time value"))).
Proof.
  split.
  - rewrite handle_log. destruct (invoke_guarded c) as (u & o & k & ->).
    apply guardedRequest_singleRoundTrip.
  - unfold handle. destruct (invoke c log) as [[result | error] log']; simpl.
    + left. by eexists.
    + destruct (errorHandler_cases error)
        as [(m & -> & ->) | (text & ->)].
      * right. by exists m.
      * left. by eexists.
Qed.

(** X12: a tool call whose owner or repository name fails validation
    resolves, without any request, with the error response built from the
    first failing validator's error; for a validation error the text is
    [Validation Error: ] followed by the validator's message. *)
Theorem tool_call_with_invalid_name (c : ToolCall) (e : Exception) log :
  firstFailure (ownerOf c) (repoOf c) = Some e ->
  (forall formatted, errorHandler e = Return formatted ->
     handle c log = (Return (createErrorResponse formatted), log))
  /\ (forall m, e = validationError m ->
        handle c log
        = (Return (createErrorResponse (PlainError ("Validation Error: " +:+ m))), log)).
Proof.
  intros Hfirst.
  assert (Hinvoke : invoke c log = (Throw e, log)).
  { destruct (invoke_guarded c) as (u & o & k & ->).
    destruct (guardedRequest_run (ownerOf c) (repoOf c) u o k log)
      as [(e' & Hfirst' & ->) | (owner' & repo' & [Ho Hr] & _)].
    - congruence.
    - unfold firstFailure in Hfirst. by rewrite Ho, Hr in Hfirst. }
  split.
  - intros formatted E. unfold handle. by rewrite Hinvoke, E.
  - intros m ->. unfold handle. by rewrite Hinvoke.
Qed.




End ToolCalls.

Lemma tool_call_with_invalid_name_witness :
  @firstFailure namingRules "-octocat" "hello world"
  = Some (validationError "Owner name cannot start or end with a hyphen")
  /\ @handle namingRules (upstream (Responded noContent)) sampleTypes
       sampleRuntime sampleResponses
       (list_workflows "-octocat" "hello world" None None) []
     = (Return (IsError (PlainError
                           "Validation Error: Owner name cannot start or end with a hyphen")),
        []).
Proof.
  assert (Hfirst : @firstFailure namingRules "-octocat" "hello world"
                   = Some (validationError "Owner name cannot start or end with a hyphen"))
    by (vm_compute; reflexivity).
  split; [exact Hfirst |].
  destruct (@tool_call_with_invalid_name
              namingRules (upstream (Responded noContent)) sampleTypes
              sampleRuntime sampleResponses
              (list_workflows "-octocat" "hello world" None None) _ [] Hfirst)
    as (_ & Hvalidation).
  exact (Hvalidation "Owner name cannot start or end with a hyphen" eq_refl).
Defined.


(** A rate-limit answer without a reset header: the tool call rejects. *)
Example tool_call_rejects_on_invalid_reset_date :
  fst (@handle namingRules (upstream (Responded rateLimitedWithoutReset)) sampleTypes
         sampleRuntime sampleResponses
         (cancel_workflow_run "octocat" "hello-world" 30433642) [])
  = Throw (PlainError "Invalid time value").
Proof. vm_compute. reflexivity. Qed.

(** A permission failure becomes an error response. *)
Example tool_call_reports_permission_failure :
  @handle namingRules (upstream (Responded forbidden)) sampleTypes
    sampleRuntime sampleResponses
    (rerun_workflow "octocat" "hello-world" 30433642) []
  = (Return (IsError (PlainError "Permission Denied: GitHub API request failed")),
     [{| url := "https://api.github.com/repos/octocat/hello-world/actions/runs/30433642/rerun";
         options := post None |}]).
Proof. vm_compute. reflexivity. Qed.
